(** * Deployment and transaction-lifecycle orchestrator

    A shallow embedding of the Go package [eth] (client: compile, deploy,
    status, estimate, verify) and of the parameter preparation of the
    contract-management service that calls it.

    The chain node, the Solidity toolchain, the operating system and the
    cryptographic and encoding libraries are external collaborators: their
    answers are the fields of a record [World], and every call the client
    makes to them is written to a trace of [Event]s. *)

From Stdlib Require Import ZArith QArith Lia.
From Stdlib Require Import Strings.String Strings.Ascii Strings.Byte.
From Stdlib Require Import Floats.SpecFloat.
From stdpp Require Import gmap strings list fin_maps.

Local Open Scope Z_scope.

(** ** Bytes and hexadecimal text (go-ethereum [common], Go [encoding/hex]) *)

Module Hex.

Definition bytes := list Byte.byte.

Definition byte_of_Z (z : Z) : Byte.byte :=
  Ascii.byte_of_ascii (Ascii.ascii_of_N (Z.to_N z)).

Definition Z_of_byte (b : Byte.byte) : Z :=
  Z.of_N (Byte.to_N b).

Definition Z_of_ascii (c : ascii) : Z := Z.of_N (Ascii.N_of_ascii c).

(** [fromHexChar]: the reverse table of [encoding/hex]; both cases of
    the letters are digits. *)
Definition fromHexChar (c : ascii) : option Z :=
  let n := Z_of_ascii c in
  if (48 <=? n) && (n <=? 57) then Some (n - 48)
  else if (97 <=? n) && (n <=? 102) then Some (n - 97 + 10)
  else if (65 <=? n) && (n <=? 70) then Some (n - 65 + 10)
  else None.

(** [hex.DecodeString] with its error dropped, as [common.Hex2Bytes]
    does: the bytes decoded before the first bad digit are kept. *)
Fixpoint Hex2Bytes (s : string) : bytes :=
  match s with
  | String p (String q rest) =>
      match fromHexChar p, fromHexChar q with
      | Some a, Some b => byte_of_Z (16 * a + b) :: Hex2Bytes rest
      | _, _ => []
      end
  | _ => []
  end.

Definition has0xPrefix (s : string) : bool :=
  match s with
  | String c0 (String c1 _) =>
      (Z_of_ascii c0 =? 48) && ((Z_of_ascii c1 =? 120) || (Z_of_ascii c1 =? 88))
  | _ => false
  end.

Definition drop2 (s : string) : string :=
  match s with
  | String _ (String _ rest) => rest
  | _ => s
  end.

(** [common.FromHex] *)
Definition FromHex (s : string) : bytes :=
  let s := if has0xPrefix s then drop2 s else s in
  let s := if Nat.odd (String.length s) then String "0" s else s in
  Hex2Bytes s.

Definition hexDigit (n : Z) : ascii :=
  if n <? 10 then Ascii.ascii_of_N (Z.to_N (48 + n))
  else Ascii.ascii_of_N (Z.to_N (97 + n - 10)).

(** [hex.EncodeToString]: two lower-case digits a byte. *)
Fixpoint EncodeToString (b : bytes) : string :=
  match b with
  | [] => EmptyString
  | x :: rest =>
      String (hexDigit (Z_of_byte x / 16))
        (String (hexDigit (Z_of_byte x mod 16)) (EncodeToString rest))
  end.

(** [hexutil.Encode] *)
Definition Encode (b : bytes) : string :=
  String "0" (String "x" (EncodeToString b)).

(** [SetBytes] of a fixed-size array of [n] bytes: the last [n] bytes
    of [b], left-padded with zeroes. *)
Definition SetBytes (n : nat) (b : bytes) : bytes :=
  let b := drop (length b - n)%nat b in
  replicate (n - length b)%nat Byte.x00 ++ b.

Definition HashLength : nat := 32.
Definition AddressLength : nat := 20.

Definition BytesToHash (b : bytes) : bytes := SetBytes HashLength b.
Definition HexToHash (s : string) : bytes := BytesToHash (FromHex s).
Definition BytesToAddress (b : bytes) : bytes := SetBytes AddressLength b.
Definition HexToAddress (s : string) : bytes := BytesToAddress (FromHex s).

(** [Hash.Hex] *)
Definition HashHex (h : bytes) : string := Encode h.

(** [bytes.HasPrefix] *)
Fixpoint HasPrefix (s p : bytes) {struct p} : bool :=
  match p, s with
  | [], _ => true
  | _ :: _, [] => false
  | y :: p', x :: s' => Byte.eqb x y && HasPrefix s' p'
  end.

End Hex.

(** ** Strings (Go [strings]) *)

Module Strings.

(** [strings.HasPrefix], byte by byte. *)
Fixpoint HasPrefix (s p : string) {struct p} : bool :=
  match p, s with
  | EmptyString, _ => true
  | String _ _, EmptyString => false
  | String y p', String x s' => Ascii.eqb x y && HasPrefix s' p'
  end.

(** [strings.Contains]: [sub] occurs at some offset of [s]. *)
Fixpoint Contains (s sub : string) : bool :=
  HasPrefix s sub ||
  match s with
  | EmptyString => false
  | String _ s' => Contains s' sub
  end.

End Strings.

(** ** Errors, events and the monad of the client

    An [error] keeps the shape of the Go value: a sentinel, [errors.New],
    or [fmt.Errorf] wrapping a cause behind a message. [Panic] is the
    run-time panic of a nil dereference, which ends the call as well. *)

Inductive error : Type :=
| External (msg : string)
| NotFound
| New (msg : string)
| Errorf (msg : string) (cause : error)
| Panic (msg : string).

Inductive result (A : Type) : Type :=
| Ok (a : A)
| Err (e : error).
Arguments Ok {A} a.
Arguments Err {A} e.

(** [interface{}] values as [encoding/json] produces them. *)
#[warnings="-register-all"]
Inductive Value : Type :=
| VNull
| VBool (b : bool)
| VNumber (n : Z)
| VString (s : string)
| VArray (l : list Value)
| VObject (l : list (string * Value)).

Record PrivateKey : Type := { D : Z }.
Record PublicKey : Type := { of_key : PrivateKey }.

(** A legacy transaction; [tx_to = None] is a contract creation. *)
Record Transaction : Type := {
  tx_nonce : Z;
  tx_to : option Hex.bytes;
  tx_value : Z;
  tx_gas : Z;
  tx_gasPrice : Z;
  tx_data : Hex.bytes
}.

(** A signature is kept symbolic: what was signed, for which chain, and
    with which key. *)
Record SignedTx : Type := {
  stx_tx : Transaction;
  stx_chainID : Z;
  stx_key : PrivateKey
}.

Record Receipt : Type := {
  r_Status : Z;
  r_GasUsed : Z;
  r_BlockNumber : Z;
  r_ContractAddress : Hex.bytes
}.

Record Header : Type := { h_Number : Z }.

Record ContractInfo : Type := { AbiDefinition : Value }.

(** [solc.Contract] *)
Record Contract : Type := {
  Code : string;
  Info : ContractInfo
}.

Inductive ABI : Type := ParsedABI (json : string).

Inductive Event : Type :=
| EvDial (rpcURL : string)
| EvChainID
| EvCreateTemp (pattern : string)
| EvWriteString (file content : string)
| EvClose (file : string)
| EvRemove (file : string)
| EvCompileSolidity (file : string)
| EvGetenv (key : string)
| EvPendingNonceAt (account : Hex.bytes)
| EvSuggestGasPrice
| EvSignTx (tx : Transaction) (chain : Z)
| EvSendTransaction (stx : SignedTx)
| EvWaitMined (stx : SignedTx)
| EvLog (msg : string) (cause : error)
| EvTransactionReceipt (hash : Hex.bytes)
| EvHeaderByNumber
| EvTransactionByHash (hash : Hex.bytes)
| EvEstimateGas (from data : Hex.bytes)
| EvCodeAt (account : Hex.bytes).

(** A computation writes the calls it makes and ends in a value or an
    error; nothing runs after an error. *)
Definition M (A : Type) : Type := (list Event * result A)%type.

Definition ret {A} (a : A) : M A := ([], Ok a).
Definition fail {A} (e : error) : M A := ([], Err e).
Definition emit (ev : Event) : M unit := ([ev], Ok tt).

Definition bind {A B} (m : M A) (k : A -> M B) : M B :=
  match m with
  | (t, Ok a) => let (t', r) := k a in (t ++ t', r)
  | (t, Err e) => (t, Err e)
  end.

(** [lift r]: a pure step that may fail. *)
Definition lift {A} (r : result A) : M A := ([], r).

(** [orErrorf msg r]: [if err != nil { return fmt.Errorf(msg: %v, err) }]. *)
Definition orErrorf {A} (msg : string) (r : result A) : M A :=
  match r with
  | Ok a => ret a
  | Err e => fail (Errorf msg e)
  end.

(** The same for a nested call of the client, whose events are kept. *)
Definition wrapErrorf {A} (msg : string) (m : M A) : M A :=
  match m with
  | (t, Ok a) => (t, Ok a)
  | (t, Err e) => (t, Err (Errorf msg e))
  end.

Definition trace {A} (m : M A) : list Event := fst m.
Definition outcome {A} (m : M A) : result A := snd m.

Declare Scope go_scope.
Delimit Scope go_scope with go.
Notation "x <- m ;; k" := (bind m (fun x => k))
  (at level 100, m at next level, right associativity) : go_scope.
Notation "m ;; k" := (bind m (fun _ => k))
  (at level 100, right associativity) : go_scope.

(** ** Machine integers and [math/big] *)

Module Int.

Definition two64 : Z := 2 ^ 64.

(** A [uint64] operation keeps the low 64 bits. *)
Definition wrap_uint64 (z : Z) : Z := z mod two64.

(** An [int64] conversion reads the low 64 bits as two's complement. *)
Definition wrap_int64 (z : Z) : Z := (z + 2 ^ 63) mod two64 - 2 ^ 63.

Definition sub_uint64 (a b : Z) : Z := wrap_uint64 (a - b).

(** [big.Int.Uint64]: the low 64 bits of the magnitude. *)
Definition Uint64 (x : Z) : Z := Z.abs x mod two64.

(** [big.Int.Int64]: the low 64 bits of the magnitude, negated for a
    negative number, as an [int64]. *)
Definition Int64 (x : Z) : Z := wrap_int64 (Z.sgn x * (Z.abs x mod two64)).

End Int.

(** [math/big.Float] and [float64], as far as the client uses them. The
    operations are the library's; the client only composes them. *)
Class BigFloatOps : Type := {
  Float : Type;
  float64 : Type;
  SetInt : Z -> Float;
  SetUint64 : Z -> Float;
  Mul : Float -> Float -> Float;
  Quo : Float -> Float -> Float;
  Float64 : Float -> float64;
  float64_zero : float64
}.

(** ** The external collaborators *)

Record World : Type := {
  (* operating system *)
  os_CreateTemp : string -> result string;
  os_WriteString : string -> string -> result unit;
  os_Close : string -> result unit;
  os_Getenv : string -> string;
  (* compiler toolchain: file name and file contents *)
  solc_CompileSolidity : string -> string -> result (gmap string Contract);
  (* Go runtime: the order in which the [range] statement at a site
     visits a map is not specified; it visits every entry once *)
  range : nat -> gmap string Contract -> list (string * Contract);
  range_perm : forall site m, range site m ≡ₚ map_to_list m;
  (* encoding/json and accounts/abi *)
  json_Marshal : Value -> result string;
  json_Unmarshal : string -> result (list Value);
  abi_JSON : string -> result ABI;
  abi_Pack : ABI -> string -> list Value -> result Hex.bytes;
  (* crypto and core/types *)
  crypto_HexToECDSA : string -> result PrivateKey;
  crypto_PubkeyToAddress : PublicKey -> Hex.bytes;
  bind_NewKeyedTransactorWithChainID : PrivateKey -> Z -> result unit;
  types_SignTx : Transaction -> Z -> PrivateKey -> result unit;
  tx_Hash : SignedTx -> Hex.bytes;
  address_Hex : Hex.bytes -> string;
  (* chain node *)
  ethclient_Dial : string -> result unit;
  node_ChainID : result Z;
  node_PendingNonceAt : Hex.bytes -> result Z;
  node_SuggestGasPrice : result Z;
  node_SendTransaction : SignedTx -> result unit;
  node_WaitMined : SignedTx -> result Receipt;
  node_TransactionReceipt : Hex.bytes -> result Receipt;
  node_HeaderByNumber : result Header;
  node_TransactionByHash : Hex.bytes -> result Transaction;
  node_EstimateGas : Hex.bytes -> Hex.bytes -> result Z;
  node_CodeAt : Hex.bytes -> result Hex.bytes
}.

(** ** Package [types] *)

Module Types.

Record DeploymentRequest : Type := {
  ContractCode : string;
  ConstructorArguments : string;
  ChainID : Z;
  GasLimit : Z;
  Metadata : option (gmap string Value)
}.

End Types.

(** ** Package [eth] *)

Module Eth.

Import Types.

Record Client : Type := {
  client : string;
  chainID : Z
}.

(** Sites of the [range] statements over the compiled contracts. *)
Definition site_deploy_by_name : nat := 0.
Definition site_deploy_first : nat := 1.
Definition site_estimate : nat := 2.
Definition site_verify : nat := 3.

(** [defer]: the call runs whichever way the body ends. *)
Definition defer {A} (ev : Event) (body : M A) : M A :=
  let (t, r) := body in (t ++ [ev], r).

(** The loop at lines 211-217 of the client: the first visited entry
    whose name contains [contractName]. *)
Fixpoint rangeByName (contractName : string) (it : list (string * Contract))
  : option (string * Contract) :=
  match it with
  | [] => None
  | (name, contract) :: rest =>
      if Strings.Contains name contractName then Some (name, contract)
      else rangeByName contractName rest
  end.

(** The loop at lines 222-226: the first visited entry. *)
Definition rangeFirst (it : list (string * Contract)) : option (string * Contract) :=
  match it with
  | [] => None
  | (name, contract) :: _ => Some (name, contract)
  end.

(** The loop at lines 536-545 of [VerifyContractSource]. *)
Fixpoint rangeVerify (deployedBytecode : Hex.bytes) (it : list (string * Contract)) : bool :=
  match it with
  | [] => false
  | (_, contract) :: rest =>
      let compiledBytecode := Hex.FromHex (Code contract) in
      if (0 <? length deployedBytecode)%nat && Hex.HasPrefix deployedBytecode compiledBytecode
      then true
      else rangeVerify deployedBytecode rest
  end.

(** [req.Metadata["contractName"].(string)] behind the nil check. *)
Definition metadataContractName (req : DeploymentRequest) : string :=
  match Metadata req with
  | Some md =>
      match md !! "contractName"%string with
      | Some (VString name) => name
      | _ => ""
      end
  | None => ""
  end.

Section WithWorld.

Context {BF : BigFloatOps} (w : World).

Local Open Scope go_scope.

Record DeploymentResult : Type := {
  TxHash : string;
  ContractAddress : string;
  BlockNumber : Z;
  GasUsed : Z;
  GasPrice : option Z;
  Cost : float64
}.

Record TransactionStatus : Type := {
  Status : string;
  ts_BlockNumber : Z;
  Confirmations : Z;
  ts_GasUsed : Z;
  ts_Cost : float64
}.

Definition NewEthClient (rpcURL : string) : M Client :=
  if String.eqb rpcURL "" then fail (New "Ethereum RPC URL is required") else
  emit (EvDial rpcURL) ;;
  _ <- orErrorf "failed to connect to Ethereum client" (ethclient_Dial w rpcURL) ;;
  emit EvChainID ;;
  chainID <- orErrorf "failed to get chain ID" (node_ChainID w) ;;
  ret {| client := rpcURL; chainID := chainID |}.

Definition GetPrivateKey (c : Client) : M PrivateKey :=
  emit (EvGetenv "ETH_PRIVATE_KEY") ;;
  let privateKeyHex := os_Getenv w "ETH_PRIVATE_KEY" in
  if String.eqb privateKeyHex "" then
    fail (New "ETH_PRIVATE_KEY environment variable not set")
  else
    let privateKeyHex :=
      if Strings.HasPrefix privateKeyHex "0x" then Hex.drop2 privateKeyHex
      else privateKeyHex in
    orErrorf "invalid private key" (crypto_HexToECDSA w privateKeyHex).

Definition CompileContract (c : Client) (sourceCode : string)
  : M (gmap string Contract) :=
  emit (EvCreateTemp "solidity-*.sol") ;;
  tmpFile <- orErrorf "failed to create temporary file"
               (os_CreateTemp w "solidity-*.sol") ;;
  defer (EvRemove tmpFile)
    (emit (EvWriteString tmpFile sourceCode) ;;
     _ <- orErrorf "failed to write to temporary file"
            (os_WriteString w tmpFile sourceCode) ;;
     emit (EvClose tmpFile) ;;
     _ <- orErrorf "failed to close temporary file" (os_Close w tmpFile) ;;
     emit (EvCompileSolidity tmpFile) ;;
     contracts <- orErrorf "compilation failed"
                    (solc_CompileSolidity w tmpFile sourceCode) ;;
     ret contracts).

(** Lines 198-227 of [DeployContract]: the contract to deploy. *)
Definition selectContract (contractName : string) (contracts : gmap string Contract)
  : option (string * Contract) :=
  let byName :=
    if negb (String.eqb contractName "") then
      rangeByName contractName (range w site_deploy_by_name contracts)
    else None in
  match byName with
  | Some sel => Some sel
  | None => rangeFirst (range w site_deploy_first contracts)
  end.

(** Lines 297-309: the payload of the creation transaction. *)
Definition encodePayload (parsedAbi : ABI) (bytecode : Hex.bytes)
    (constructorArgs : list Value) : M Hex.bytes :=
  if (0 <? length constructorArgs)%nat then
    data <- orErrorf "failed to encode constructor arguments"
              (abi_Pack w parsedAbi "" constructorArgs) ;;
    ret (bytecode ++ data)
  else ret bytecode.

Definition DeployContract (c : Client) (req : DeploymentRequest)
  : M DeploymentResult :=
  (* Compile the Solidity code *)
  contracts <- wrapErrorf "compilation failed"
                 (CompileContract c (ContractCode req)) ;;
  if (size contracts =? 0)%nat then
    fail (New "no contracts found in source code")
  else
  (* Find the main contract *)
  match selectContract (metadataContractName req) contracts with
  | None => fail (Panic "nil pointer dereference")
  | Some (contractName, compiledContract) =>
  (* Get the contract ABI and bytecode *)
  contractAbi <- orErrorf "failed to marshal ABI"
                   (json_Marshal w (AbiDefinition (Info compiledContract))) ;;
  parsedAbi <- orErrorf "failed to parse ABI" (abi_JSON w contractAbi) ;;
  let bytecode := Hex.FromHex (Code compiledContract) in
  if (length bytecode =? 0)%nat then fail (New "empty bytecode") else
  (* Get the private key for transaction signing *)
  privateKey <- wrapErrorf "failed to get private key" (GetPrivateKey c) ;;
  (* Create a new transaction signer *)
  let chainID := if ChainID req =? 0 then chainID c else ChainID req in
  (* Get the deployer's address; the key is an ECDSA key, so the
     cast of its public half cannot fail *)
  let publicKeyECDSA := {| of_key := privateKey |} in
  let fromAddress := crypto_PubkeyToAddress w publicKeyECDSA in
  (* Get the nonce for the sender's account *)
  emit (EvPendingNonceAt fromAddress) ;;
  nonce <- orErrorf "failed to get nonce" (node_PendingNonceAt w fromAddress) ;;
  (* Get gas price *)
  emit EvSuggestGasPrice ;;
  gasPrice <- orErrorf "failed to suggest gas price" (node_SuggestGasPrice w) ;;
  (* Set up the transaction options *)
  _ <- orErrorf "failed to create transactor"
         (bind_NewKeyedTransactorWithChainID w privateKey chainID) ;;
  let auth_GasLimit := GasLimit req in
  (* Process constructor arguments if provided *)
  constructorArgs <-
    (if negb (String.eqb (ConstructorArguments req) "") then
       orErrorf "failed to parse constructor arguments"
         (json_Unmarshal w (ConstructorArguments req))
     else ret []) ;;
  (* Encode the constructor arguments with the contract bytecode *)
  data <- encodePayload parsedAbi bytecode constructorArgs ;;
  (* Create the transaction *)
  let tx := {| tx_nonce := nonce; tx_to := None; tx_value := 0;
               tx_gas := auth_GasLimit; tx_gasPrice := gasPrice;
               tx_data := data |} in
  (* Sign the transaction *)
  emit (EvSignTx tx chainID) ;;
  _ <- orErrorf "failed to sign transaction" (types_SignTx w tx chainID privateKey) ;;
  let signedTx := {| stx_tx := tx; stx_chainID := chainID; stx_key := privateKey |} in
  (* Send the transaction *)
  emit (EvSendTransaction signedTx) ;;
  _ <- orErrorf "failed to send transaction" (node_SendTransaction w signedTx) ;;
  (* Wait for the transaction receipt *)
  emit (EvWaitMined signedTx) ;;
  match node_WaitMined w signedTx with
  | Err err =>
      emit (EvLog "Warning: Timeout waiting for transaction receipt" err) ;;
      ret {| TxHash := Hex.HashHex (tx_Hash w signedTx);
             ContractAddress := "";
             BlockNumber := 0;
             GasUsed := 0;
             GasPrice := None;
             Cost := float64_zero |}
  | Ok receipt =>
      (* Calculate the cost in ETH *)
      let gasUsed := r_GasUsed receipt in
      let gasCost := Mul (SetInt gasPrice) (SetUint64 gasUsed) in
      (* Convert from wei to ETH *)
      let weiPerEth := SetInt (10 ^ 18) in
      let costInEth := Quo gasCost weiPerEth in
      let ethCost := Float64 costInEth in
      ret {| TxHash := Hex.HashHex (tx_Hash w signedTx);
             ContractAddress := address_Hex w (r_ContractAddress receipt);
             BlockNumber := Int.Int64 (r_BlockNumber receipt);
             GasUsed := r_GasUsed receipt;
             GasPrice := Some gasPrice;
             Cost := ethCost |}
  end
  end.

Definition GetTransactionStatus (c : Client) (txHash : string)
  : M TransactionStatus :=
  let hash := Hex.HexToHash txHash in
  (* Try to get transaction receipt *)
  emit (EvTransactionReceipt hash) ;;
  match node_TransactionReceipt w hash with
  | Err NotFound =>
      (* Transaction is still pending *)
      ret {| Status := "pending";
             ts_BlockNumber := 0;
             Confirmations := 0;
             ts_GasUsed := 0;
             ts_Cost := float64_zero |}
  | Err err => fail (Errorf "failed to get transaction receipt" err)
  | Ok receipt =>
      (* Get the current block number to calculate confirmations *)
      emit EvHeaderByNumber ;;
      header <- orErrorf "failed to get current block header"
                  (node_HeaderByNumber w) ;;
      (* Calculate confirmations *)
      let confirmations :=
        Int.sub_uint64 (Int.Uint64 (h_Number header))
                       (Int.Uint64 (r_BlockNumber receipt)) in
      (* Get the transaction to calculate cost *)
      emit (EvTransactionByHash hash) ;;
      tx <- orErrorf "failed to get transaction" (node_TransactionByHash w hash) ;;
      (* Calculate the transaction cost *)
      let gasPrice := tx_gasPrice tx in
      let gasUsed := r_GasUsed receipt in
      let gasCost := Mul (SetInt gasPrice) (SetUint64 gasUsed) in
      (* Convert from wei to ETH *)
      let weiPerEth := SetInt (10 ^ 18) in
      let costInEth := Quo gasCost weiPerEth in
      let ethCost := Float64 costInEth in
      (* Determine status *)
      let status := if r_Status receipt =? 1 then "success" else "failed" in
      ret {| Status := status;
             ts_BlockNumber := Int.Uint64 (r_BlockNumber receipt);
             Confirmations := confirmations;
             ts_GasUsed := r_GasUsed receipt;
             ts_Cost := ethCost |}
  end.

Definition EstimateDeploymentCost (c : Client) (contractCode : string)
  : M float64 :=
  contracts <- wrapErrorf "compilation failed" (CompileContract c contractCode) ;;
  if (size contracts =? 0)%nat then
    fail (New "no contracts found in source code")
  else
  (* Get the compiled contract bytecode (use the first contract) *)
  let bytecode :=
    match range w site_estimate contracts with
    | (_, contract) :: _ => Hex.FromHex (Code contract)
    | [] => []
    end in
  privateKey <- wrapErrorf "failed to get private key" (GetPrivateKey c) ;;
  let publicKeyECDSA := {| of_key := privateKey |} in
  let fromAddress := crypto_PubkeyToAddress w publicKeyECDSA in
  (* Estimate gas *)
  emit (EvEstimateGas fromAddress bytecode) ;;
  gasLimit <- orErrorf "failed to estimate gas"
                (node_EstimateGas w fromAddress bytecode) ;;
  (* Get current gas price *)
  emit EvSuggestGasPrice ;;
  gasPrice <- orErrorf "failed to get gas price" (node_SuggestGasPrice w) ;;
  (* Calculate total cost *)
  let gasCost := Mul (SetInt gasPrice) (SetUint64 gasLimit) in
  let weiPerEth := SetInt (10 ^ 18) in
  let costInEth := Quo gasCost weiPerEth in
  ret (Float64 costInEth).

Definition VerifyContractSource (c : Client)
    (contractAddress sourceCode constructorArgs : string) : M bool :=
  (* Compile the provided source code *)
  contracts <- wrapErrorf "compilation failed" (CompileContract c sourceCode) ;;
  (* Get the bytecode of the deployed contract *)
  let address := Hex.HexToAddress contractAddress in
  emit (EvCodeAt address) ;;
  deployedBytecode <- orErrorf "failed to get deployed bytecode"
                        (node_CodeAt w address) ;;
  (* Compare bytecodes *)
  ret (rangeVerify deployedBytecode (range w site_verify contracts)).

End WithWorld.

End Eth.

(** ** Package [contracts]: what the service hands to the client *)

Module Contracts.

Record Contract : Type := {
  ID : string;
  OwnerID : string;
  ContractCode : string
}.

Record DeploymentRequest : Type := {
  ContractID : string;
  DeployerID : string;
  ChainID : Z;
  GasLimit : Z;
  Constructor : string
}.

(** Lines 314-336 of [Service.DeployContract]: the deployment
    parameters and the request built from them. No metadata is set. *)
Definition deploymentParameters (contract : Contract) (req : DeploymentRequest)
  : Types.DeploymentRequest :=
  let chainID := if ChainID req =? 0 then 1 else ChainID req in
  let gasLimit := if GasLimit req =? 0 then 4000000 else GasLimit req in
  {| Types.ContractCode := ContractCode contract;
     Types.ConstructorArguments := Constructor req;
     Types.ChainID := chainID;
     Types.GasLimit := gasLimit;
     Types.Metadata := None |}.

End Contracts.

(** ** Two readings of [math/big.Float] *)

(** Exact rational arithmetic: what the operations approximate. *)
Definition ExactFloat : BigFloatOps := {|
  Float := Q;
  float64 := Q;
  SetInt := inject_Z;
  SetUint64 := inject_Z;
  Mul := Qmult;
  Quo := Qdiv;
  Float64 := fun q => q;
  float64_zero := 0%Q
|}.

(** Binary floating point. A [big.Float] is a precision and a value
    rounded to it, to nearest even; [SetInt] and [SetUint64] choose a
    precision that holds the integer, [Mul] and [Quo] on fresh receivers
    take the larger precision of their operands, and [Float64] rounds to
    binary64. The exponent range is that of [big.Float]. *)
Module GoFloat.

Definition MaxExp : Z := 2 ^ 31 - 1.

Record t : Type := { prec : Z; val : spec_float }.

Definition of_Z (z : Z) : spec_float :=
  match z with
  | Z0 => S754_zero false
  | Zpos p => S754_finite false p 0
  | Zneg p => S754_finite true p 0
  end.

Definition BitLen (z : Z) : Z := Z.log2 (Z.abs z) + (if z =? 0 then 0 else 1).

Definition SetInt (z : Z) : t :=
  {| prec := Z.max (BitLen z) 64; val := of_Z z |}.

Definition SetUint64 (z : Z) : t :=
  {| prec := 64; val := of_Z z |}.

Definition Mul (x y : t) : t :=
  let p := Z.max (prec x) (prec y) in
  {| prec := p; val := SFmul p MaxExp (val x) (val y) |}.

Definition Quo (x y : t) : t :=
  let p := Z.max (prec x) (prec y) in
  {| prec := p; val := SFdiv p MaxExp (val x) (val y) |}.

Definition Float64 (x : t) : spec_float :=
  match val x with
  | S754_finite s m e => binary_round 53 1024 s m e
  | v => v
  end.

Definition ops : BigFloatOps :=
  Build_BigFloatOps t spec_float SetInt SetUint64 Mul Quo Float64 (S754_zero false).

End GoFloat.

(** ** A reference scenario

    A source with a token contract and an interface, a funded key, and a
    node whose answers are the parameters of the scenario. *)

Module Scenario.

Import Eth.

Definition token : Contract :=
  {| Code := "0x6080604052"; Info := {| AbiDefinition := VArray [] |} |}.

Definition iface : Contract :=
  {| Code := "0x"; Info := {| AbiDefinition := VArray [] |} |}.

Definition compiled : gmap string Contract :=
  <["tmp.sol:Token"%string := token]> (<["tmp.sol:IToken"%string := iface]> ∅).

Definition onlyIface : gmap string Contract :=
  <["tmp.sol:IToken"%string := iface]> ∅.

Definition order (reversed : bool) (l : list (string * Contract))
  : list (string * Contract) :=
  if reversed then reverse l else l.

Definition order_perm (reversed : bool) (l : list (string * Contract))
  : order reversed l ≡ₚ l :=
  match reversed with
  | true => reverse_Permutation l
  | false => reflexivity l
  end.

Record Config : Type := {
  cfg_solc : result (gmap string Contract);
  cfg_reversed : bool;
  cfg_args : list Value;
  cfg_send : result unit;
  cfg_wait : result Receipt;
  cfg_receipt : result Receipt;
  cfg_header : result Header;
  cfg_tx : result Transaction;
  cfg_code : result Hex.bytes
}.

Definition key : PrivateKey := {| D := 7 |}.
Definition sender : Hex.bytes := Hex.HexToAddress "0x00000000000000000000000000000000000000aa".
Definition created : Hex.bytes := Hex.HexToAddress "0x00000000000000000000000000000000000000cc".

Definition world (cfg : Config) : World := {|
  os_CreateTemp := fun _ => Ok "/tmp/solidity-1.sol"%string;
  os_WriteString := fun _ _ => Ok tt;
  os_Close := fun _ => Ok tt;
  os_Getenv := fun _ => "0x07"%string;
  solc_CompileSolidity := fun _ _ => cfg_solc cfg;
  range := fun _ m => order (cfg_reversed cfg) (map_to_list m);
  range_perm := fun _ m => order_perm (cfg_reversed cfg) (map_to_list m);
  json_Marshal := fun _ => Ok "[]"%string;
  json_Unmarshal := fun _ => Ok (cfg_args cfg);
  abi_JSON := fun j => Ok (ParsedABI j);
  abi_Pack := fun _ _ args => Ok (replicate (32 * length args) Byte.x00);
  crypto_HexToECDSA := fun _ => Ok key;
  crypto_PubkeyToAddress := fun _ => sender;
  bind_NewKeyedTransactorWithChainID := fun _ _ => Ok tt;
  types_SignTx := fun _ _ _ => Ok tt;
  tx_Hash := fun stx => Hex.BytesToHash (tx_data (stx_tx stx));
  address_Hex := Hex.Encode;
  ethclient_Dial := fun _ => Ok tt;
  node_ChainID := Ok 1337;
  node_PendingNonceAt := fun _ => Ok 4;
  node_SuggestGasPrice := Ok 20000000000;
  node_SendTransaction := fun _ => cfg_send cfg;
  node_WaitMined := fun _ => cfg_wait cfg;
  node_TransactionReceipt := fun _ => cfg_receipt cfg;
  node_HeaderByNumber := cfg_header cfg;
  node_TransactionByHash := fun _ => cfg_tx cfg;
  node_EstimateGas := fun _ _ => Ok 21000;
  node_CodeAt := fun _ => cfg_code cfg
|}.

Definition receipt : Receipt :=
  {| r_Status := 1; r_GasUsed := 21000; r_BlockNumber := 10;
     r_ContractAddress := created |}.

Definition mined : Config := {|
  cfg_solc := Ok compiled;
  cfg_reversed := false;
  cfg_args := [];
  cfg_send := Ok tt;
  cfg_wait := Ok receipt;
  cfg_receipt := Ok receipt;
  cfg_header := Ok {| h_Number := 12 |};
  cfg_tx := Ok {| tx_nonce := 4; tx_to := None; tx_value := 0; tx_gas := 4000000;
                  tx_gasPrice := 20000000000; tx_data := Hex.FromHex "0x6080604052" |};
  cfg_code := Ok (Hex.FromHex "0x6080604052")
|}.

(** The receipt wait runs into the deadline. *)
Definition stalled : Config := {|
  cfg_solc := cfg_solc mined; cfg_reversed := cfg_reversed mined;
  cfg_args := cfg_args mined; cfg_send := cfg_send mined;
  cfg_wait := Err (External "context deadline exceeded");
  cfg_receipt := Err NotFound; cfg_header := cfg_header mined;
  cfg_tx := cfg_tx mined; cfg_code := cfg_code mined
|}.

(** The node that answers for the head is five blocks behind the
    receipt. *)
Definition lagging : Config := {|
  cfg_solc := cfg_solc mined; cfg_reversed := cfg_reversed mined;
  cfg_args := cfg_args mined; cfg_send := cfg_send mined;
  cfg_wait := cfg_wait mined; cfg_receipt := cfg_receipt mined;
  cfg_header := Ok {| h_Number := 5 |};
  cfg_tx := cfg_tx mined; cfg_code := cfg_code mined
|}.

(** The source does not compile. *)
Definition broken : Config := {|
  cfg_solc := Err (External "ParserError: Expected ';'");
  cfg_reversed := cfg_reversed mined;
  cfg_args := cfg_args mined; cfg_send := cfg_send mined;
  cfg_wait := cfg_wait mined; cfg_receipt := cfg_receipt mined;
  cfg_header := cfg_header mined;
  cfg_tx := cfg_tx mined; cfg_code := cfg_code mined
|}.

(** The source holds an interface only, and nothing is deployed at the
    address. *)
Definition vacant : Config := {|
  cfg_solc := Ok onlyIface; cfg_reversed := cfg_reversed mined;
  cfg_args := cfg_args mined; cfg_send := cfg_send mined;
  cfg_wait := cfg_wait mined; cfg_receipt := cfg_receipt mined;
  cfg_header := cfg_header mined;
  cfg_tx := cfg_tx mined; cfg_code := Ok []
|}.

(** The source holds an interface only, and some other contract is
    deployed at the address. *)
Definition unrelated : Config := {|
  cfg_solc := Ok onlyIface; cfg_reversed := cfg_reversed mined;
  cfg_args := cfg_args mined; cfg_send := cfg_send mined;
  cfg_wait := cfg_wait mined; cfg_receipt := cfg_receipt mined;
  cfg_header := cfg_header mined;
  cfg_tx := cfg_tx mined; cfg_code := Ok (Hex.FromHex "0xdeadbeef")
|}.


Definition conn : Client := {| client := "http://localhost:8545"; chainID := 1337 |}.

(** The transaction the request of the scenario leads to, and its
    signed form. *)
Definition creation : Transaction :=
  {| tx_nonce := 4; tx_to := None; tx_value := 0; tx_gas := 4000000;
     tx_gasPrice := 20000000000; tx_data := Hex.FromHex "0x6080604052" |}.

Definition signed : SignedTx :=
  {| stx_tx := creation; stx_chainID := 1337; stx_key := key |}.

Definition request : Types.DeploymentRequest := {|
  Types.ContractCode := "contract Token {} interface IToken {}";
  Types.ConstructorArguments := "";
  Types.ChainID := 0;
  Types.GasLimit := 4000000;
  Types.Metadata := Some (<["contractName"%string := VString ":Token"]> ∅)
|}.


End Scenario.

(** ** Vocabulary of the specification *)

Module Spec.

Import Eth.

(** The calls of the Compiler Adapter: the scoped temporary file and
    the toolchain. *)
Definition compilerStep (ev : Event) : bool :=
  match ev with
  | EvCreateTemp _ | EvWriteString _ _ | EvClose _ | EvRemove _
  | EvCompileSolidity _ => true
  | _ => false
  end.

(** The steps of the Transaction Builder and of the Broadcaster: key
    resolution, nonce and gas-price queries, signing, submission and the
    receipt wait. *)
Definition builderStep (ev : Event) : bool :=
  match ev with
  | EvGetenv _ | EvPendingNonceAt _ | EvSuggestGasPrice | EvSignTx _ _
  | EvSendTransaction _ | EvWaitMined _ => true
  | _ => false
  end.

(** [CompileError]: the toolchain failed, or there is no contract. *)
Definition CompileError (e : error) : Prop :=
  (exists cause, e = Errorf "compilation failed" cause) \/
  e = New "no contracts found in source code".

(** The chain a signing or submission event is bound to. *)
Definition boundChain (ev : Event) : option Z :=
  match ev with
  | EvSignTx _ chain => Some chain
  | EvSendTransaction stx | EvWaitMined stx => Some (stx_chainID stx)
  | _ => None
  end.

(** The payload a signing or submission event carries. *)
Definition payload (ev : Event) : option Hex.bytes :=
  match ev with
  | EvSignTx tx _ => Some (tx_data tx)
  | EvSendTransaction stx | EvWaitMined stx => Some (tx_data (stx_tx stx))
  | _ => None
  end.

(** Cost in the native unit: gas used times gas price, divided by the
    scale factor 10^18, in the arithmetic of [big.Float]. *)
Definition weiPerNativeUnit : Z := 10 ^ 18.

Definition costInNativeUnit {BF : BigFloatOps} (gasUsed gasPrice : Z) : float64 :=
  Float64 (Quo (Mul (SetInt gasPrice) (SetUint64 gasUsed)) (SetInt weiPerNativeUnit)).

(** The chain the node serves has no receipt for the hash. *)
Definition Unmined (w : World) (hash : Hex.bytes) : Prop :=
  node_TransactionReceipt w hash = Err NotFound.

(** The chain the node serves has the transaction [tx] under the hash,
    mined with the receipt [receipt], and its head is [header]. *)
Definition Mined (w : World) (hash : Hex.bytes)
    (receipt : Receipt) (header : Header) (tx : Transaction) : Prop :=
  node_TransactionReceipt w hash = Ok receipt /\
  node_HeaderByNumber w = Ok header /\
  node_TransactionByHash w hash = Ok tx.

(** The constructor arguments of a request: none for the empty text,
    else what the text decodes to. *)
Definition constructorArgsOf (w : World) (req : Types.DeploymentRequest)
  : result (list Value) :=
  if String.eqb (Types.ConstructorArguments req) "" then Ok []
  else json_Unmarshal w (Types.ConstructorArguments req).

(** [wp t0 m Q]: run after the calls [t0], the computation [m] ends
    with calls and an outcome that satisfy [Q]. *)
Definition wp {A} (t0 : list Event) (m : M A)
    (Q : list Event -> result A -> Prop) : Prop :=
  Q (t0 ++ trace m) (outcome m).

Section Runs.

Context {BF : BigFloatOps} (w : World) (c : Client) (req : Types.DeploymentRequest).

(** What holds of a transaction that [DeployContract] hands to the
    signer, for the chain [chain] and with the key [key]. *)
Inductive Prepared (tx : Transaction) (chain : Z) (key : PrivateKey) : Prop :=
| prepared contracts name contract abiJSON parsedAbi args :
    outcome (CompileContract w c (Types.ContractCode req)) = Ok contracts ->
    selectContract w (metadataContractName req) contracts
      = Some (name, contract) ->
    json_Marshal w (AbiDefinition (Info contract)) = Ok abiJSON ->
    abi_JSON w abiJSON = Ok parsedAbi ->
    Hex.FromHex (Code contract) <> [] ->
    outcome (GetPrivateKey w c) = Ok key ->
    chain = (if Types.ChainID req =? 0 then chainID c else Types.ChainID req) ->
    node_PendingNonceAt w (crypto_PubkeyToAddress w {| of_key := key |})
      = Ok (tx_nonce tx) ->
    node_SuggestGasPrice w = Ok (tx_gasPrice tx) ->
    tx_gas tx = Types.GasLimit req ->
    tx_value tx = 0 ->
    tx_to tx = None ->
    constructorArgsOf w req = Ok args ->
    (args = [] /\ tx_data tx = Hex.FromHex (Code contract)) \/
    (args <> [] /\
     exists enc, abi_Pack w parsedAbi "" args = Ok enc /\
                 tx_data tx = Hex.FromHex (Code contract) ++ enc) ->
    Prepared tx chain key.

Definition sign (tx : Transaction) (chain : Z) (key : PrivateKey) : SignedTx :=
  {| stx_tx := tx; stx_chainID := chain; stx_key := key |}.

(** The five ways a call of [DeployContract] ends. [pre] holds the
    calls made before signing. *)
Inductive DeployRun : M DeploymentResult -> Prop :=
| run_stopped pre e :
    Forall (fun ev => boundChain ev = None) pre ->
    DeployRun (pre, Err e)
| run_unsigned pre tx chain key e :
    Forall (fun ev => boundChain ev = None) pre ->
    Prepared tx chain key ->
    types_SignTx w tx chain key = Err e ->
    DeployRun (pre ++ [EvSignTx tx chain],
               Err (Errorf "failed to sign transaction" e))
| run_rejected pre tx chain key e :
    Forall (fun ev => boundChain ev = None) pre ->
    Prepared tx chain key ->
    node_SendTransaction w (sign tx chain key) = Err e ->
    DeployRun (pre ++ [EvSignTx tx chain; EvSendTransaction (sign tx chain key)],
               Err (Errorf "failed to send transaction" e))
| run_pending pre tx chain key e :
    Forall (fun ev => boundChain ev = None) pre ->
    Prepared tx chain key ->
    node_SendTransaction w (sign tx chain key) = Ok tt ->
    node_WaitMined w (sign tx chain key) = Err e ->
    DeployRun (pre ++ [EvSignTx tx chain; EvSendTransaction (sign tx chain key);
                       EvWaitMined (sign tx chain key);
                       EvLog "Warning: Timeout waiting for transaction receipt" e],
               Ok {| TxHash := Hex.HashHex (tx_Hash w (sign tx chain key));
                     ContractAddress := "";
                     BlockNumber := 0;
                     GasUsed := 0;
                     GasPrice := None;
                     Cost := float64_zero |})
| run_mined pre tx chain key receipt :
    Forall (fun ev => boundChain ev = None) pre ->
    Prepared tx chain key ->
    node_SendTransaction w (sign tx chain key) = Ok tt ->
    node_WaitMined w (sign tx chain key) = Ok receipt ->
    DeployRun (pre ++ [EvSignTx tx chain; EvSendTransaction (sign tx chain key);
                       EvWaitMined (sign tx chain key)],
               Ok {| TxHash := Hex.HashHex (tx_Hash w (sign tx chain key));
                     ContractAddress := address_Hex w (r_ContractAddress receipt);
                     BlockNumber := Int.Int64 (r_BlockNumber receipt);
                     GasUsed := r_GasUsed receipt;
                     GasPrice := Some (tx_gasPrice tx);
                     Cost := Float64 (Quo (Mul (SetInt (tx_gasPrice tx))
                                               (SetUint64 (r_GasUsed receipt)))
                                          (SetInt (10 ^ 18))) |}).

End Runs.

End Spec.

(** ** Package [eth]: read-only contract calls *)

Module Call.

Import Eth.

(** The node's [eth_call]: the answer to a message sent to [to] with
    [data], at the latest block. *)
Record CallNode : Type := {
  node_CallContract : Hex.bytes -> Hex.bytes -> result Hex.bytes
}.

Inductive CallEvent : Type :=
| EvCallContract (to data : Hex.bytes).

(** [InteractWithContract] *)
Definition InteractWithContract (w : World) (n : CallNode) (c : Client)
    (contractAddress abiJSON methodName : string) (params : list Value)
  : list CallEvent * result string :=
  (* Parse the ABI *)
  match abi_JSON w abiJSON with
  | Err err => ([], Err (Errorf "failed to parse ABI" err))
  | Ok parsedABI =>
      (* Encode the function call *)
      match abi_Pack w parsedABI methodName params with
      | Err err => ([], Err (Errorf "failed to encode function call" err))
      | Ok data =>
          (* Create the call message *)
          let to := Hex.HexToAddress contractAddress in
          (* Execute the call *)
          match node_CallContract n to data with
          | Err err =>
              ([EvCallContract to data], Err (Errorf "contract call failed" err))
          | Ok result =>
              (* Return the raw result *)
              ([EvCallContract to data], Ok (Hex.Encode result))
          end
      end
  end.

End Call.

(** ** Package [contracts]: the handlers of the service

    A handler reads a request, talks to the contract collection and to
    the client, and writes one response. The collection, the clock and the
    identifier source answer as the fields of [Store]; the calls a handler
    makes are its trace. *)

Module Service.

(** Values of a BSON document that the handlers build. *)
#[warnings="-register-all"]
Inductive Field : Type :=
| FJson (v : Value)
| FString (s : string)
| FInt (z : Z)
| FBool (b : bool)
| FTime (t : Z)
| FBigInt (z : option Z)
| FDoc (m : gmap string Field).

Record Contract : Type := {
  ID : string;
  OwnerID : string;
  ContractCode : string;
  Metadata : option (gmap string Value);
  CreatedAt : Z;
  UpdatedAt : Z;
  IsPublic : bool;
  DeployedAddress : string;
  DeploymentInfo : option (gmap string Field)
}.

(** The part of a stored contract that a deployment reads. *)
Definition core (contract : Contract) : Contracts.Contract :=
  {| Contracts.ID := ID contract;
     Contracts.OwnerID := OwnerID contract;
     Contracts.ContractCode := ContractCode contract |}.

Inductive FindOneResult : Type :=
| Decoded (contract : Contract)
| ErrNoDocuments
| FindOneError (err : error).

Record UpdateResult : Type := {
  MatchedCount : Z;
  ModifiedCount : Z
}.

Record Store : Type := {
  db_FindOne : string -> FindOneResult;
  db_InsertOne : Contract -> result unit;
  (* [Find] with filter, skip and limit, sorted by creation time, then
     [cursor.All] *)
  db_Find : gmap string Field -> Z -> Z -> result (result (list Contract));
  db_CountDocuments : gmap string Field -> result Z;
  db_UpdateOne : string -> gmap string Field -> result UpdateResult;
  db_DeleteOne : string -> result Z;
  uuid_New : string;
  (* the clock, at each reading of a handler *)
  time_Now : nat -> Z;
  ParseInt32 : string -> result Z
}.

(** What a handler reads of the [gin.Context]: the outcome of binding
    the JSON body, path parameters, query parameters and headers; an absent
    parameter or header reads as the empty text. *)
Record Request (T : Type) : Type := {
  body : result T;
  Param : string -> string;
  Query : string -> string;
  GetHeader : string -> string
}.
Arguments body {T} _.
Arguments Param {T} _ _.
Arguments Query {T} _ _.
Arguments GetHeader {T} _ _.

Inductive SEvent : Type :=
| EvFindOne (id : string)
| EvInsertOne (contract : Contract)
| EvFind (filter : gmap string Field) (skip limit : Z)
| EvCountDocuments (filter : gmap string Field)
| EvUpdateOne (id : string) (set : gmap string Field)
| EvDeleteOne (id : string)
| EvEth (ev : Event).

Definition StatusBadRequest : Z := 400.
Definition StatusForbidden : Z := 403.
Definition StatusNotFound : Z := 404.
Definition StatusInternalServerError : Z := 500.
Definition StatusOK : Z := 200.
Definition StatusCreated : Z := 201.

Section Handlers.

Context {BF : BigFloatOps} (w : World) (s : Store) (ethClient : Eth.Client).

Record DeploymentResponse : Type := {
  TxHash : string;
  ContractAddress : string;
  Cost : float64;
  BlockNumber : Z
}.

(** The JSON bodies the handlers write. *)
Inductive Body : Type :=
| JError (msg : string)
| JBindError (err : error)
| JErrorDetails (msg : string) (details : error)
| JCreated (contract_id message : string)
| JContract (contract : Contract)
| JList (contracts : list Contract) (total skip limit : Z)
| JUpdated (message : string) (modified_count : Z)
| JMessage (message : string)
| JDeployment (r : DeploymentResponse)
| JDeployedNotStored (msg : string) (deployment : gmap string Field)
| JStatus (st : Eth.TransactionStatus).

Record Response : Type := {
  code : Z;
  json : Body
}.

Definition JSON (code : Z) (b : Body) : Response := {| code := code; json := b |}.

(** [CreateContract] *)
Definition CreateContract (c : Request Contract) : list SEvent * Response :=
  match body c with
  | Err err => ([], JSON StatusBadRequest (JBindError err))
  | Ok contract =>
      (* Generate UUID for the contract *)
      let contract :=
        {| ID := uuid_New s;
           OwnerID := OwnerID contract;
           ContractCode := ContractCode contract;
           Metadata := Metadata contract;
           CreatedAt := time_Now s 0;
           UpdatedAt := time_Now s 1;
           IsPublic := IsPublic contract;
           DeployedAddress := DeployedAddress contract;
           DeploymentInfo := DeploymentInfo contract |} in
      (* Insert the contract into the database *)
      match db_InsertOne s contract with
      | Err _ =>
          ([EvInsertOne contract],
           JSON StatusInternalServerError (JError "Failed to create contract"))
      | Ok _ =>
          ([EvInsertOne contract],
           JSON StatusCreated (JCreated (ID contract) "Contract created successfully"))
      end
  end.

(** [GetContract] *)
Definition GetContract (c : Request unit) : list SEvent * Response :=
  let id := Param c "id" in
  match db_FindOne s id with
  | ErrNoDocuments =>
      ([EvFindOne id], JSON StatusNotFound (JError "Contract not found"))
  | FindOneError _ =>
      ([EvFindOne id],
       JSON StatusInternalServerError (JError "Failed to retrieve contract"))
  | Decoded contract => ([EvFindOne id], JSON StatusOK (JContract contract))
  end.

(** [ListContracts] *)
Definition ListContracts (c : Request unit) : list SEvent * Response :=
  let ownerID := Query c "owner_id" in
  let isPublic := String.eqb (Query c "is_public") "true" in
  let skip :=
    let skipParam := Query c "skip" in
    if negb (String.eqb skipParam "") then
      match ParseInt32 s skipParam with
      | Ok val => val
      | Err _ => 0
      end
    else 0 in
  let limit :=
    let limitParam := Query c "limit" in
    if negb (String.eqb limitParam "") then
      match ParseInt32 s limitParam with
      | Ok val => if 0 <? val then val else 100
      | Err _ => 100
      end
    else 100 in
  (* Build the filter *)
  let filter : gmap string Field := ∅ in
  let filter :=
    if negb (String.eqb ownerID "") then <["owner_id"%string := FString ownerID]> filter
    else filter in
  let filter :=
    if negb (String.eqb (Query c "is_public") "")
    then <["is_public"%string := FBool isPublic]> filter
    else filter in
  (* Execute the query *)
  match db_Find s filter skip limit with
  | Err _ =>
      ([EvFind filter skip limit],
       JSON StatusInternalServerError (JError "Failed to list contracts"))
  | Ok (Err _) =>
      ([EvFind filter skip limit],
       JSON StatusInternalServerError (JError "Failed to decode contracts"))
  | Ok (Ok contracts) =>
      (* Get total count for pagination *)
      let count :=
        match db_CountDocuments s filter with
        | Ok count => count
        | Err _ => Z.of_nat (length contracts)
        end in
      ([EvFind filter skip limit; EvCountDocuments filter],
       JSON StatusOK (JList contracts count skip limit))
  end.

(** [UpdateContract]. The body binds to a map, which is [nil] when the
    body is the JSON text [null]: deleting from a nil map does nothing,
    and the assignment of [updated_at] to it panics. *)
Definition UpdateContract (c : Request (option (gmap string Value)))
  : list SEvent * result Response :=
  let id := Param c "id" in
  match body c with
  | Err err => ([], Ok (JSON StatusBadRequest (JBindError err)))
  | Ok updates =>
      (* Check if the contract exists and user has permission *)
      match db_FindOne s id with
      | ErrNoDocuments =>
          ([EvFindOne id], Ok (JSON StatusNotFound (JError "Contract not found")))
      | FindOneError _ =>
          ([EvFindOne id],
           Ok (JSON StatusInternalServerError (JError "Failed to retrieve contract")))
      | Decoded existingContract =>
          (* Verify ownership *)
          let requestUserID := GetHeader c "X-User-ID" in
          if negb (String.eqb (OwnerID existingContract) requestUserID) then
            ([EvFindOne id],
             Ok (JSON StatusForbidden
                   (JError "You don't have permission to update this contract")))
          else
            match updates with
            | None => ([EvFindOne id], Err (Panic "assignment to entry in nil map"))
            | Some updates =>
            (* Prevent updating critical fields *)
            let updates : gmap string Field := FJson <$> updates in
            let updates := delete "_id"%string updates in
            let updates := delete "owner_id"%string updates in
            let updates := delete "created_at"%string updates in
            (* Always update the updated_at timestamp *)
            let updates := <["updated_at"%string := FTime (time_Now s 0)]> updates in
            (* Perform the update *)
            match db_UpdateOne s id updates with
            | Err _ =>
                ([EvFindOne id; EvUpdateOne id updates],
                 Ok (JSON StatusInternalServerError (JError "Failed to update contract")))
            | Ok updateResult =>
                if MatchedCount updateResult =? 0 then
                  ([EvFindOne id; EvUpdateOne id updates],
                   Ok (JSON StatusNotFound (JError "Contract not found")))
                else
                  ([EvFindOne id; EvUpdateOne id updates],
                   Ok (JSON StatusOK
                         (JUpdated "Contract updated successfully"
                            (ModifiedCount updateResult))))
            end
            end
      end
  end.

(** [DeleteContract] *)
Definition DeleteContract (c : Request unit) : list SEvent * Response :=
  let id := Param c "id" in
  (* Check if the contract exists and user has permission *)
  match db_FindOne s id with
  | ErrNoDocuments =>
      ([EvFindOne id], JSON StatusNotFound (JError "Contract not found"))
  | FindOneError _ =>
      ([EvFindOne id],
       JSON StatusInternalServerError (JError "Failed to retrieve contract"))
  | Decoded existingContract =>
      (* Verify ownership *)
      let requestUserID := GetHeader c "X-User-ID" in
      if negb (String.eqb (OwnerID existingContract) requestUserID) then
        ([EvFindOne id],
         JSON StatusForbidden
           (JError "You don't have permission to delete this contract"))
      else
        (* Perform the delete *)
        match db_DeleteOne s id with
        | Err _ =>
            ([EvFindOne id; EvDeleteOne id],
             JSON StatusInternalServerError (JError "Failed to delete contract"))
        | Ok deletedCount =>
            if deletedCount =? 0 then
              ([EvFindOne id; EvDeleteOne id],
               JSON StatusNotFound (JError "Contract not found"))
            else
              ([EvFindOne id; EvDeleteOne id],
               JSON StatusOK (JMessage "Contract deleted successfully"))
        end
  end.

(** The [deploymentInfo] map of [DeployContract]. *)
Definition deploymentInfo (req : Contracts.DeploymentRequest) (chainID : Z)
    (deployResult : Eth.DeploymentResult) : gmap string Field :=
  <["tx_hash"%string := FString (Eth.TxHash deployResult)]>
  (<["contract_address"%string := FString (Eth.ContractAddress deployResult)]>
  (<["block_number"%string := FInt (Eth.BlockNumber deployResult)]>
  (<["chain_id"%string := FInt chainID]>
  (<["deployer_id"%string := FString (Contracts.DeployerID req)]>
  (<["deployed_at"%string := FTime (time_Now s 0)]>
  (<["gas_used"%string := FInt (Eth.GasUsed deployResult)]>
  (<["gas_price"%string := FBigInt (Eth.GasPrice deployResult)]> ∅))))))).

(** [DeployContract] of the service. *)
Definition DeployContract (c : Request Contracts.DeploymentRequest)
  : list SEvent * Response :=
  match body c with
  | Err err => ([], JSON StatusBadRequest (JBindError err))
  | Ok req =>
      (* Retrieve the contract from the database *)
      let id := Contracts.ContractID req in
      match db_FindOne s id with
      | ErrNoDocuments =>
          ([EvFindOne id], JSON StatusNotFound (JError "Contract not found"))
      | FindOneError _ =>
          ([EvFindOne id],
           JSON StatusInternalServerError (JError "Failed to retrieve contract"))
      | Decoded contract =>
          (* Verify ownership *)
          if negb (String.eqb (OwnerID contract) (Contracts.DeployerID req)) then
            ([EvFindOne id],
             JSON StatusForbidden
               (JError "You don't have permission to deploy this contract"))
          else
            (* Prepare deployment parameters *)
            let ethReq := Contracts.deploymentParameters (core contract) req in
            let chainID := Types.ChainID ethReq in
            (* Deploy the contract *)
            let deployment := Eth.DeployContract w ethClient ethReq in
            let called := EvFindOne id :: map EvEth (trace deployment) in
            match outcome deployment with
            | Err err =>
                (called,
                 JSON StatusInternalServerError
                   (JErrorDetails "Failed to deploy contract" err))
            | Ok deployResult =>
                (* Update the contract in the database with deployment
                   information *)
                let info := deploymentInfo req chainID deployResult in
                let set : gmap string Field :=
                  <["deployed_address"%string :=
                      FString (Eth.ContractAddress deployResult)]>
                  (<["deployment_info"%string := FDoc info]>
                  (<["updated_at"%string := FTime (time_Now s 1)]> ∅)) in
                let stored :=
                  match db_UpdateOne s id set with
                  | Err _ => false
                  | Ok updateResult => negb (ModifiedCount updateResult =? 0)
                  end in
                if negb stored then
                  (called ++ [EvUpdateOne id set],
                   JSON StatusInternalServerError
                     (JDeployedNotStored
                        "Contract deployed but failed to update database" info))
                else
                  (called ++ [EvUpdateOne id set],
                   JSON StatusOK
                     (JDeployment
                        {| TxHash := Eth.TxHash deployResult;
                           ContractAddress := Eth.ContractAddress deployResult;
                           Cost := Eth.Cost deployResult;
                           BlockNumber := Eth.BlockNumber deployResult |}))
            end
      end
  end.

(** [GetDeploymentStatus] *)
Definition GetDeploymentStatus (c : Request unit) : list SEvent * Response :=
  let txHash := Param c "txHash" in
  if String.eqb txHash "" then
    ([], JSON StatusBadRequest (JError "Transaction hash is required"))
  else
    let lookup := Eth.GetTransactionStatus w ethClient txHash in
    match outcome lookup with
    | Err err =>
        (map EvEth (trace lookup),
         JSON StatusInternalServerError
           (JErrorDetails "Failed to get transaction status" err))
    | Ok status => (map EvEth (trace lookup), JSON StatusOK (JStatus status))
    end.

End Handlers.

End Service.

(** ** More vocabulary *)

Module Steps.

Definition isSignature (ev : Event) : bool :=
  match ev with EvSignTx _ _ => true | _ => false end.

Definition isSubmission (ev : Event) : bool :=
  match ev with EvSendTransaction _ => true | _ => false end.

Definition isReceiptWait (ev : Event) : bool :=
  match ev with EvWaitMined _ => true | _ => false end.

(** The calls that only read: of the chain, of the environment, and
    the compilation in its temporary file. *)
Definition readsOnly (ev : Event) : bool :=
  match ev with
  | EvSignTx _ _ | EvSendTransaction _ | EvWaitMined _ => false
  | _ => true
  end.

(** The payload [EstimateDeploymentCost] prices: the bytecode of the
    first contract visited. *)
Definition estimatedPayload (w : World) (contracts : gmap string Contract) : Hex.bytes :=
  match range w Eth.site_estimate contracts with
  | (_, contract) :: _ => Hex.FromHex (Code contract)
  | [] => []
  end.

End Steps.

(** ** More of the reference scenario *)

Module Cases.

Import Eth.

(** The world [w] with the key variable set to [value]. *)
Definition withEnv (value : string) (w : World) : World := {|
  os_CreateTemp := os_CreateTemp w;
  os_WriteString := os_WriteString w;
  os_Close := os_Close w;
  os_Getenv := fun _ => value;
  solc_CompileSolidity := solc_CompileSolidity w;
  range := range w;
  range_perm := range_perm w;
  json_Marshal := json_Marshal w;
  json_Unmarshal := json_Unmarshal w;
  abi_JSON := abi_JSON w;
  abi_Pack := abi_Pack w;
  crypto_HexToECDSA := crypto_HexToECDSA w;
  crypto_PubkeyToAddress := crypto_PubkeyToAddress w;
  bind_NewKeyedTransactorWithChainID := bind_NewKeyedTransactorWithChainID w;
  types_SignTx := types_SignTx w;
  tx_Hash := tx_Hash w;
  address_Hex := address_Hex w;
  ethclient_Dial := ethclient_Dial w;
  node_ChainID := node_ChainID w;
  node_PendingNonceAt := node_PendingNonceAt w;
  node_SuggestGasPrice := node_SuggestGasPrice w;
  node_SendTransaction := node_SendTransaction w;
  node_WaitMined := node_WaitMined w;
  node_TransactionReceipt := node_TransactionReceipt w;
  node_HeaderByNumber := node_HeaderByNumber w;
  node_TransactionByHash := node_TransactionByHash w;
  node_EstimateGas := node_EstimateGas w;
  node_CodeAt := node_CodeAt w
|}.

(** The source holds the token contract alone. *)
Definition single : Scenario.Config := {|
  Scenario.cfg_solc := Ok {[ "tmp.sol:Token"%string := Scenario.token ]};
  Scenario.cfg_reversed := false;
  Scenario.cfg_args := [];
  Scenario.cfg_send := Ok tt;
  Scenario.cfg_wait := Ok Scenario.receipt;
  Scenario.cfg_receipt := Ok Scenario.receipt;
  Scenario.cfg_header := Ok {| h_Number := 12 |};
  Scenario.cfg_tx := Ok Scenario.creation;
  Scenario.cfg_code := Ok (Hex.FromHex "0x6080604052")
|}.

(** The source holds no contract at all. *)
Definition blank : Scenario.Config := {|
  Scenario.cfg_solc := Ok ∅;
  Scenario.cfg_reversed := false;
  Scenario.cfg_args := [];
  Scenario.cfg_send := Ok tt;
  Scenario.cfg_wait := Ok Scenario.receipt;
  Scenario.cfg_receipt := Ok Scenario.receipt;
  Scenario.cfg_header := Ok {| h_Number := 12 |};
  Scenario.cfg_tx := Ok Scenario.creation;
  Scenario.cfg_code := Ok (Hex.FromHex "0x6080604052")
|}.


(** The transaction of the scenario, signed for chain 1. *)
Definition signedForMainnet : SignedTx :=
  {| stx_tx := Scenario.creation; stx_chainID := 1; stx_key := Scenario.key |}.

(** A request whose hint is part of both names. *)
Definition looseRequest : Types.DeploymentRequest := {|
  Types.ContractCode := "contract Token {} interface IToken {}";
  Types.ConstructorArguments := "";
  Types.ChainID := 0;
  Types.GasLimit := 4000000;
  Types.Metadata := Some (<["contractName"%string := VString "Token"]> ∅)
|}.

Definition plainRequest : Types.DeploymentRequest := {|
  Types.ContractCode := "contract Token {}";
  Types.ConstructorArguments := "";
  Types.ChainID := 0;
  Types.GasLimit := 4000000;
  Types.Metadata := None
|}.

(** A node that answers every call with the number 42. *)
Definition answering : Call.CallNode :=
  {| Call.node_CallContract := fun _ _ => Ok (Hex.SetBytes 32 [Byte.x2a]) |}.

(** A collection with one private contract of the user [alice]. *)
Definition stored : Service.Contract := {|
  Service.ID := "c-1";
  Service.OwnerID := "alice";
  Service.ContractCode := "contract Token {} interface IToken {}";
  Service.Metadata := None;
  Service.CreatedAt := 1700000000;
  Service.UpdatedAt := 1700000000;
  Service.IsPublic := false;
  Service.DeployedAddress := "";
  Service.DeploymentInfo := None
|}.

Fixpoint digits (acc : Z) (text : string) : result Z :=
  match text with
  | EmptyString => Ok acc
  | String ch rest =>
      let d := Hex.Z_of_ascii ch - 48 in
      if (0 <=? d) && (d <=? 9) then digits (10 * acc + d) rest
      else Err (External "invalid syntax")
  end.

Definition store : Service.Store := {|
  Service.db_FindOne := fun id =>
    if String.eqb id "c-1" then Service.Decoded stored else Service.ErrNoDocuments;
  Service.db_InsertOne := fun _ => Ok tt;
  Service.db_Find := fun _ _ _ => Ok (Ok [stored]);
  Service.db_CountDocuments := fun _ => Err (External "context deadline exceeded");
  Service.db_UpdateOne := fun _ _ =>
    Ok {| Service.MatchedCount := 1; Service.ModifiedCount := 1 |};
  Service.db_DeleteOne := fun _ => Ok 1;
  Service.uuid_New := "6ba7b810-9dad-11d1-80b4-00c04fd430c8";
  Service.time_Now := fun k => 1700000100 + Z.of_nat k;
  Service.ParseInt32 := fun text =>
    match text with
    | EmptyString => Err (External "invalid syntax")
    | _ => digits 0 text
    end
|}.

(** A request: its body, one path parameter, the query and the user. *)
Definition httpRequest {T} (b : result T) (param : string)
    (query : list (string * string)) (user : string) : Service.Request T := {|
  Service.body := b;
  Service.Param := fun _ => param;
  Service.Query := fun key =>
    match List.find (fun kv => String.eqb (fst kv) key) query with
    | Some kv => snd kv
    | None => ""%string
    end;
  Service.GetHeader := fun key => if String.eqb key "X-User-ID" then user else ""%string
|}.

Definition deployBody (deployer : string) : Contracts.DeploymentRequest := {|
  Contracts.ContractID := "c-1";
  Contracts.DeployerID := deployer;
  Contracts.ChainID := 0;
  Contracts.GasLimit := 0;
  Contracts.Constructor := ""
|}.

End Cases.

(** * Properties *)

Import Eth Spec.

Section Monad.

Context {A B : Type}.

Lemma trace_bind (m : M A) (k : A -> M B) :
  trace (bind m k) =
  trace m ++ match outcome m with Ok a => trace (k a) | Err _ => [] end.
Proof.
  destruct m as [t [a|e]]; simpl.
  - destruct (k a); reflexivity.
  - symmetry; apply app_nil_r.
Qed.

Lemma outcome_bind (m : M A) (k : A -> M B) :
  outcome (bind m k) =
  match outcome m with Ok a => outcome (k a) | Err e => Err e end.
Proof.
  destruct m as [t [a|e]]; simpl; [destruct (k a)|]; reflexivity.
Qed.

Lemma trace_wrapErrorf msg (m : M A) : trace (wrapErrorf msg m) = trace m.
Proof. destruct m as [t [a|e]]; reflexivity. Qed.

Lemma outcome_wrapErrorf msg (m : M A) :
  outcome (wrapErrorf msg m) =
  match outcome m with Ok a => Ok a | Err e => Err (Errorf msg e) end.
Proof. destruct m as [t [a|e]]; reflexivity. Qed.

Lemma trace_orErrorf msg (r : result A) : trace (orErrorf msg r) = [].
Proof. destruct r; reflexivity. Qed.

Lemma outcome_orErrorf msg (r : result A) :
  outcome (orErrorf msg r) =
  match r with Ok a => Ok a | Err e => Err (Errorf msg e) end.
Proof. destruct r; reflexivity. Qed.

End Monad.

(** Rules of [wp], one for each way the client sequences a call. *)
Lemma wp_ret {B} pre (a : B) (Q : list Event -> result B -> Prop) :
  Q pre (Ok a) -> wp pre (ret a) Q.
Proof. unfold wp; simpl. now rewrite app_nil_r. Qed.

Lemma wp_fail {B} pre e (Q : list Event -> result B -> Prop) :
  Q pre (Err e) -> wp pre (fail e) Q.
Proof. unfold wp; simpl. now rewrite app_nil_r. Qed.

Lemma wp_bind {A B} pre (m : M A) (k : A -> M B) (Q : list Event -> result B -> Prop) :
  wp pre m (fun t r => match r with
                       | Ok a => wp t (k a) Q
                       | Err e => Q t (Err e)
                       end) ->
  wp pre (bind m k) Q.
Proof.
  unfold wp. rewrite trace_bind, outcome_bind.
  destruct (outcome m); simpl.
  - now rewrite app_assoc.
  - now rewrite app_nil_r.
Qed.

Lemma wp_bind_emit {B} pre ev (k : unit -> M B) (Q : list Event -> result B -> Prop) :
  wp (pre ++ [ev]) (k tt) Q -> wp pre (bind (emit ev) k) Q.
Proof. intros H. apply wp_bind. exact H. Qed.

Lemma wp_bind_orErrorf {A B} pre msg (r : result A) (k : A -> M B)
    (Q : list Event -> result B -> Prop) :
  (forall a, r = Ok a -> wp pre (k a) Q) ->
  (forall e, r = Err e -> Q pre (Err (Errorf msg e))) ->
  wp pre (bind (orErrorf msg r) k) Q.
Proof.
  intros Hok Herr. apply wp_bind. unfold wp.
  rewrite trace_orErrorf, outcome_orErrorf, app_nil_r.
  destruct r; [apply Hok | apply Herr]; reflexivity.
Qed.

Lemma wp_bind_wrapErrorf {A B} pre msg (m : M A) (k : A -> M B)
    (Q : list Event -> result B -> Prop) :
  (forall a, outcome m = Ok a -> wp (pre ++ trace m) (k a) Q) ->
  (forall e, outcome m = Err e -> Q (pre ++ trace m) (Err (Errorf msg e))) ->
  wp pre (bind (wrapErrorf msg m) k) Q.
Proof.
  intros Hok Herr. apply wp_bind. unfold wp.
  rewrite trace_wrapErrorf, outcome_wrapErrorf.
  destruct (outcome m); [apply Hok | apply Herr]; reflexivity.
Qed.

Lemma wp_run {A} (m : M A) (P : M A -> Prop) :
  wp [] m (fun t r => P (t, r)) -> P m.
Proof. unfold wp. destruct m; simpl. auto. Qed.

(** [walk] follows a call of the client from its first statement, one
    collaborator's answer at a time, and in the order of the source. *)
Ltac walk_step :=
  lazymatch goal with
  | |- wp _ (bind (emit _) _) _ => apply wp_bind_emit
  | |- wp _ (bind (orErrorf _ _) _) _ =>
      apply wp_bind_orErrorf; [intros ? ? | intros ? ?]
  | |- wp _ (bind (wrapErrorf _ _) _) _ =>
      apply wp_bind_wrapErrorf; [intros ? ? | intros ? ?]
  | |- wp _ (bind (if ?b then _ else _) _) _ => destruct b eqn:?
  | |- wp _ (bind (ret _) _) _ => apply wp_bind, wp_ret
  | |- wp _ (bind _ _) _ => apply wp_bind
  | |- wp _ (ret _) _ => apply wp_ret
  | |- wp _ (fail _) _ => apply wp_fail
  | |- wp _ (if ?b then _ else _) _ => destruct b eqn:?
  | |- wp _ (match ?x with _ => _ end) _ => destruct x eqn:?
  | |- _ => progress cbv beta iota
  end.

Ltac walk := cbv zeta; repeat walk_step.

Section Compile.

Context (w : World) (c : Client).

Lemma CompileContract_compilerSteps src :
  Forall (fun ev => compilerStep ev = true) (trace (CompileContract w c src)).
Proof.
  unfold CompileContract, defer, bind, emit, ret.
  destruct (os_CreateTemp w _) as [file|]; simpl; [|repeat constructor].
  destruct (os_WriteString w file src); simpl; [|repeat constructor].
  destruct (os_Close w file); simpl; [|repeat constructor].
  destruct (solc_CompileSolidity w file src); simpl; repeat constructor.
Qed.

(** The temporary file is removed on every path that created it. *)
Lemma CompileContract_cleanup src file :
  os_CreateTemp w "solidity-*.sol" = Ok file ->
  last (trace (CompileContract w c src)) = Some (EvRemove file).
Proof.
  intros H. unfold CompileContract, defer, bind, emit, ret. rewrite H. simpl.
  destruct (os_WriteString w file src); simpl; [|reflexivity].
  destruct (os_Close w file); simpl; [|reflexivity].
  destruct (solc_CompileSolidity w file src); reflexivity.
Qed.

Lemma compilerStep_not_builderStep ev :
  compilerStep ev = true -> builderStep ev = false.
Proof. destruct ev; simpl; congruence. Qed.

End Compile.

Lemma length_eqb_false {A} (l : list A) : (length l =? 0)%nat = false -> l <> [].
Proof. destruct l; simpl; congruence. Qed.

Lemma length_ltb_true {A} (l : list A) : (0 <? length l)%nat = true -> l <> [].
Proof. destruct l; simpl; [discriminate | congruence]. Qed.

Lemma length_ltb_false {A} (l : list A) : (0 <? length l)%nat = false -> l = [].
Proof. destruct l; simpl; [reflexivity | discriminate]. Qed.

Lemma app_snoc2 {A} (l : list A) a b : (l ++ [a]) ++ [b] = l ++ [a; b].
Proof. now rewrite <- app_assoc. Qed.

Lemma app_snoc3 {A} (l : list A) a b c : ((l ++ [a]) ++ [b]) ++ [c] = l ++ [a; b; c].
Proof. now rewrite <- !app_assoc. Qed.

Lemma app_snoc4 {A} (l : list A) a b c d :
  (((l ++ [a]) ++ [b]) ++ [c]) ++ [d] = l ++ [a; b; c; d].
Proof. now rewrite <- !app_assoc. Qed.

(** [Hash.Hex] never yields the empty text: it starts with [0x]. *)
Lemma HashHex_nonempty (h : Hex.bytes) : Hex.HashHex h <> ""%string.
Proof. unfold Hex.HashHex, Hex.Encode. discriminate. Qed.

(** ** Deployment *)

Section Deploy.

Context {BF : BigFloatOps} (w : World) (c : Client).

Lemma GetPrivateKey_trace : trace (GetPrivateKey w c) = [EvGetenv "ETH_PRIVATE_KEY"].
Proof.
  unfold GetPrivateKey, bind, emit. simpl.
  destruct (String.eqb _ _); simpl; [reflexivity|].
  destruct (crypto_HexToECDSA w _); reflexivity.
Qed.

Lemma compilerSteps_unbound t :
  Forall (fun ev => compilerStep ev = true) t ->
  Forall (fun ev => boundChain ev = None) t.
Proof.
  intros H. eapply Forall_impl; [exact H|].
  intros ev. destruct ev; simpl; congruence.
Qed.

Ltac unbound Hc :=
  rewrite ?GetPrivateKey_trace;
  repeat (apply Forall_app; split);
  try (apply compilerSteps_unbound; exact Hc);
  repeat constructor.

Ltac prepared :=
  eapply prepared;
  [ eassumption | eassumption | eassumption | eassumption
  | apply length_eqb_false; eassumption
  | eassumption | reflexivity | simpl; eassumption | simpl; eassumption
  | reflexivity | reflexivity | reflexivity
  | unfold constructorArgsOf;
    match goal with
    | H : negb (String.eqb ?s _) = _ |- _ =>
        destruct (String.eqb s ""); simpl in H; try discriminate H
    end; first [eassumption | reflexivity]
  | simpl;
    first [ left; split; [first [reflexivity | apply length_ltb_false; assumption]
                         | reflexivity]
          | right; split; [apply length_ltb_true; assumption
                          | eexists; split; [eassumption | reflexivity]] ] ].

(** Every call of [DeployContract] ends in one of the five ways. *)
Lemma DeployContract_run (req : Types.DeploymentRequest) :
  DeployRun w c req (DeployContract w c req).
Proof.
  pose proof (CompileContract_compilerSteps w c (Types.ContractCode req)) as Hc.
  apply wp_run. unfold DeployContract, encodePayload. walk.
  all: repeat match goal with u : unit |- _ => destruct u end.
  all: try (apply run_stopped; unbound Hc; fail).
  all: try (eapply run_unsigned; [unbound Hc | prepared | eassumption]; fail).
  all: try (rewrite app_snoc2; eapply run_rejected;
            [unbound Hc | prepared | eassumption]; fail).
  all: try (rewrite app_snoc3; eapply run_mined;
            [unbound Hc | prepared | eassumption | eassumption]; fail).
  all: try (rewrite app_snoc4; eapply run_pending;
            [unbound Hc | prepared | eassumption | eassumption]; fail).
Qed.

Lemma unbound_pre pre ev chain :
  Forall (fun ev => boundChain ev = None) pre ->
  ev ∈ pre -> boundChain ev = Some chain -> False.
Proof.
  intros Hpre Hin Hb. rewrite Forall_forall in Hpre.
  specialize (Hpre ev Hin). congruence.
Qed.

(** An event bound to a chain was produced from a prepared
    transaction, for that chain and with that payload. *)
Ltac locate Hpre Hin Hb :=
  apply elem_of_app in Hin as [Hin|Hin];
  [destruct (unbound_pre _ _ _ Hpre Hin Hb)|];
  repeat (apply elem_of_cons in Hin as [->|Hin]);
  try (apply elem_of_nil in Hin as []);
  simpl in Hb; try discriminate Hb.

Ltac sought Hpre Hin Hb :=
  apply elem_of_app in Hin as [Hin|Hin];
  [destruct (unbound_pre _ _ _ Hpre Hin Hb)|];
  apply list_elem_of_In in Hin; simpl in Hin;
  repeat (destruct Hin as [Hin|Hin]; [try discriminate Hin|]);
  try contradiction.

Lemma DeployRun_bound req m ev chain :
  DeployRun w c req m -> ev ∈ trace m -> boundChain ev = Some chain ->
  exists tx key, Prepared w c req tx chain key /\ payload ev = Some (tx_data tx).
Proof.
  intros Hrun Hin Hb.
  destruct Hrun as [pre e Hpre | pre tx ch key e Hpre Hp _
                   | pre tx ch key e Hpre Hp _
                   | pre tx ch key e Hpre Hp _ _
                   | pre tx ch key r Hpre Hp _ _]; simpl in Hin.
  - destruct (unbound_pre _ _ _ Hpre Hin Hb).
  - locate Hpre Hin Hb; injection Hb as <-; eauto.
  - locate Hpre Hin Hb; injection Hb as <-; eauto.
  - locate Hpre Hin Hb; injection Hb as <-; eauto.
  - locate Hpre Hin Hb; injection Hb as <-; eauto.
Qed.

(** A receipt wait follows a successful submission, and its answer
    decides the result. *)
Lemma DeployRun_waited req m stx :
  DeployRun w c req m -> EvWaitMined stx ∈ trace m ->
  exists tx chain key,
    stx = sign tx chain key /\ Prepared w c req tx chain key /\
    node_SendTransaction w stx = Ok tt /\
    outcome m =
      match node_WaitMined w stx with
      | Err _ =>
          Ok {| TxHash := Hex.HashHex (tx_Hash w stx);
                ContractAddress := "";
                BlockNumber := 0;
                GasUsed := 0;
                GasPrice := None;
                Cost := float64_zero |}
      | Ok receipt =>
          Ok {| TxHash := Hex.HashHex (tx_Hash w stx);
                ContractAddress := address_Hex w (r_ContractAddress receipt);
                BlockNumber := Int.Int64 (r_BlockNumber receipt);
                GasUsed := r_GasUsed receipt;
                GasPrice := Some (tx_gasPrice tx);
                Cost := Float64 (Quo (Mul (SetInt (tx_gasPrice tx))
                                          (SetUint64 (r_GasUsed receipt)))
                                     (SetInt (10 ^ 18))) |}
      end.
Proof.
  intros Hrun Hin.
  assert (Hb : boundChain (EvWaitMined stx) = Some (stx_chainID stx)) by reflexivity.
  destruct Hrun as [pre e Hpre | pre tx ch key e Hpre Hp _
                   | pre tx ch key e Hpre Hp _
                   | pre tx ch key e Hpre Hp Hs Hw
                   | pre tx ch key r Hpre Hp Hs Hw]; simpl in Hin.
  - destruct (unbound_pre _ _ _ Hpre Hin Hb).
  - sought Hpre Hin Hb.
  - sought Hpre Hin Hb.
  - sought Hpre Hin Hb. injection Hin as <-.
    exists tx, ch, key. simpl. rewrite Hw. auto.
  - sought Hpre Hin Hb. injection Hin as <-.
    exists tx, ch, key. simpl. rewrite Hw. auto.
Qed.

(** A call that returns a result has signed and submitted. *)
Lemma DeployRun_ok req m res :
  DeployRun w c req m -> outcome m = Ok res ->
  exists tx chain key,
    Prepared w c req tx chain key /\
    EvSignTx tx chain ∈ trace m /\
    EvSendTransaction (sign tx chain key) ∈ trace m /\
    EvWaitMined (sign tx chain key) ∈ trace m.
Proof.
  intros Hrun Hok.
  destruct Hrun as [pre e Hpre | pre tx ch key e Hpre Hp _
                   | pre tx ch key e Hpre Hp _
                   | pre tx ch key e Hpre Hp Hs Hw
                   | pre tx ch key r Hpre Hp Hs Hw]; simpl in Hok; try discriminate Hok.
  - exists tx, ch, key. simpl. rewrite !elem_of_app, !elem_of_cons. auto 10.
  - exists tx, ch, key. simpl. rewrite !elem_of_app, !elem_of_cons. auto 10.
Qed.

(** C1. If the receipt wait of a deployment fails, by timeout or
    otherwise, after the transaction was submitted, [DeployContract]
    returns no error but a result that holds the transaction hash, which
    is not empty, and nothing else: the contract address is empty, and
    block number, gas used, gas price and cost are zero. *)
Theorem deploy_timeout_hash_only (req : Types.DeploymentRequest) stx e :
  EvWaitMined stx ∈ trace (DeployContract w c req) ->
  node_WaitMined w stx = Err e ->
  outcome (DeployContract w c req) =
    Ok {| TxHash := Hex.HashHex (tx_Hash w stx);
          ContractAddress := "";
          BlockNumber := 0;
          GasUsed := 0;
          GasPrice := None;
          Cost := float64_zero |} /\
  Hex.HashHex (tx_Hash w stx) <> ""%string /\
  node_SendTransaction w stx = Ok tt.
Proof.
  intros Hin Hwait.
  destruct (DeployRun_waited req _ stx (DeployContract_run req) Hin)
    as (tx & chain & key & -> & _ & Hsend & Hout).
  rewrite Hwait in Hout. auto using HashHex_nonempty.
Qed.


(** C5. The payload of the transaction a deployment signs and submits
    is the bytecode of the selected artifact, followed by the ABI
    encoding of the constructor arguments when there is at least one,
    and alone when there is none. *)
Theorem deploy_payload (req : Types.DeploymentRequest) ev data :
  ev ∈ trace (DeployContract w c req) ->
  payload ev = Some data ->
  exists contracts name contract abiJSON parsedAbi args,
    outcome (CompileContract w c (Types.ContractCode req)) = Ok contracts /\
    selectContract w (metadataContractName req) contracts = Some (name, contract) /\
    json_Marshal w (AbiDefinition (Info contract)) = Ok abiJSON /\
    abi_JSON w abiJSON = Ok parsedAbi /\
    constructorArgsOf w req = Ok args /\
    ((args = [] /\ data = Hex.FromHex (Code contract)) \/
     (args <> [] /\
      exists enc, abi_Pack w parsedAbi "" args = Ok enc /\
                  data = Hex.FromHex (Code contract) ++ enc)).
Proof.
  intros Hin Hp.
  assert (Hb : exists chain, boundChain ev = Some chain)
    by (destruct ev; simpl in *; try discriminate Hp; eauto).
  destruct Hb as [chain Hb].
  destruct (DeployRun_bound req _ ev chain (DeployContract_run req) Hin Hb)
    as (tx & key & [cs n ct j abi args H1 H2 H3 H4 _ _ _ _ _ _ _ _ Hargs Hdata] & Hpay).
  assert (data = tx_data tx) as -> by congruence.
  exists cs, n, ct, j, abi, args. auto 10.
Qed.

(** C7. When the compilation fails, or yields no contract,
    [DeployContract] fails with a compile error, and the only calls it
    made are those of the compilation: no key was resolved, no nonce or
    gas price fetched, nothing signed or submitted. *)
Theorem deploy_compile_error_stops (req : Types.DeploymentRequest) :
  (exists e, outcome (CompileContract w c (Types.ContractCode req)) = Err e) \/
  (exists contracts,
      outcome (CompileContract w c (Types.ContractCode req)) = Ok contracts /\
      size contracts = 0%nat) ->
  (exists e, outcome (DeployContract w c req) = Err e /\ CompileError e) /\
  trace (DeployContract w c req)
    = trace (CompileContract w c (Types.ContractCode req)) /\
  Forall (fun ev => builderStep ev = false) (trace (DeployContract w c req)).
Proof.
  intros H.
  pose proof (CompileContract_compilerSteps w c (Types.ContractCode req)) as Hc.
  assert (Hd : (exists e, outcome (DeployContract w c req) = Err e /\ CompileError e) /\
               trace (DeployContract w c req) =
               trace (CompileContract w c (Types.ContractCode req))).
  { unfold DeployContract.
    destruct (CompileContract w c (Types.ContractCode req)) as [t [m|e]]; simpl in *.
    - destruct H as [[e H]|[m' [H Hsz]]]; [discriminate|].
      injection H as <-. rewrite Hsz. simpl.
      split; [|apply app_nil_r].
      eexists; split; [reflexivity|]. right; reflexivity.
    - split; [|reflexivity].
      eexists; split; [reflexivity|]. left; eexists; reflexivity. }
  destruct Hd as [He Ht]. repeat split; try assumption.
  rewrite Ht. eapply Forall_impl; [exact Hc|].
  intros ev; apply compilerStep_not_builderStep.
Qed.

End Deploy.

(** ** Contract selection *)

Lemma HasPrefix_spec (s p : string) :
  Strings.HasPrefix s p = true <-> exists q, s = String.append p q.
Proof.
  revert s. induction p as [|y p IH]; intros s; simpl.
  - split; eauto.
  - destruct s as [|x s]; simpl.
    + split; [discriminate | intros [q Hq]; discriminate].
    + rewrite andb_true_iff, IH, Ascii.eqb_eq. split.
      * intros [-> [q ->]]. eauto.
      * intros [q Hq]. injection Hq as -> ->. eauto.
Qed.

(** [strings.Contains] is the substring relation, on the bytes as they
    are: no case folding. *)
Lemma Contains_spec (s sub : string) :
  Strings.Contains s sub = true <->
  exists p q, s = String.append p (String.append sub q).
Proof.
  induction s as [|x s IH]; simpl.
  - rewrite orb_false_r, HasPrefix_spec. split.
    + intros [q Hq]. exists EmptyString, q. exact Hq.
    + intros [p [q Hq]]. destruct p; simpl in Hq; [eauto | discriminate].
  - rewrite orb_true_iff, IH.
    change (Strings.HasPrefix (String x s) sub = true \/
            (exists p q, s = String.append p (String.append sub q)) <->
            exists p q, String x s = String.append p (String.append sub q)).
    rewrite HasPrefix_spec. split.
    + intros [[q Hq]|[p [q Hq]]].
      * exists EmptyString, q. exact Hq.
      * exists (String x p), q. simpl. now rewrite Hq.
    + intros [p [q Hq]]. destruct p as [|y p]; simpl in Hq.
      * left. eauto.
      * right. injection Hq as -> ->. eauto.
Qed.

Section Select.

Context (w : World).

Lemma range_lookup site (contracts : gmap string Contract) name contract :
  (name, contract) ∈ range w site contracts <-> contracts !! name = Some contract.
Proof.
  rewrite (range_perm w site contracts). apply elem_of_map_to_list.
Qed.

Lemma range_length site (contracts : gmap string Contract) :
  length (range w site contracts) = size contracts.
Proof.
  rewrite (range_perm w site contracts). apply length_map_to_list.
Qed.

Lemma rangeByName_Some hint it name contract :
  rangeByName hint it = Some (name, contract) <->
  exists before after,
    it = before ++ (name, contract) :: after /\
    Forall (fun e => Strings.Contains (fst e) hint = false) before /\
    Strings.Contains name hint = true.
Proof.
  induction it as [|[n ct] it IH]; simpl.
  - split; [discriminate|]. intros (b & a & H & _). destruct b; discriminate.
  - destruct (Strings.Contains n hint) eqn:E.
    + split.
      * intros [= -> ->]. exists [], it. auto.
      * intros (b & a & H & Hb & Hc). destruct b as [|[n' c'] b]; simpl in H.
        -- injection H as -> -> _. reflexivity.
        -- injection H as -> -> _. inversion Hb; subst. simpl in *. congruence.
    + rewrite IH. split.
      * intros (b & a & -> & Hb & Hc). exists ((n, ct) :: b), a. auto.
      * intros (b & a & H & Hb & Hc). destruct b as [|[n' c'] b]; simpl in H.
        -- injection H as -> -> _. congruence.
        -- injection H as -> -> ->. inversion Hb; subst. eauto.
Qed.


(** The selection never comes back empty-handed from a map that has an
    entry: the nil dereference behind it cannot happen. *)
Lemma selectContract_Some hint (contracts : gmap string Contract) :
  size contracts <> 0%nat ->
  exists name contract,
    selectContract w hint contracts = Some (name, contract) /\
    contracts !! name = Some contract.
Proof.
  intros Hsz. unfold selectContract.
  destruct (if negb (String.eqb hint "") then _ else None) as [[n ct]|] eqn:E.
  - exists n, ct. split; [reflexivity|].
    destruct (negb (String.eqb hint "")); [|discriminate].
    apply rangeByName_Some in E as (b & a & E & _).
    apply (range_lookup site_deploy_by_name). rewrite E.
    apply elem_of_app; right; left.
  - pose proof (range_length site_deploy_first contracts) as Hl.
    destruct (range w site_deploy_first contracts) as [|[n ct] it] eqn:Er;
      simpl in Hl; [congruence|].
    exists n, ct. split; [reflexivity|].
    apply (range_lookup site_deploy_first). rewrite Er. left.
Qed.


End Select.

(** ** Status lookup *)

Section Status.

Context {BF : BigFloatOps} (w : World) (c : Client).

(** The result of a lookup, answer by answer. *)
Lemma GetTransactionStatus_outcome txHash :
  outcome (GetTransactionStatus w c txHash) =
  match node_TransactionReceipt w (Hex.HexToHash txHash) with
  | Err NotFound =>
      Ok {| Status := "pending"; ts_BlockNumber := 0; Confirmations := 0;
            ts_GasUsed := 0; ts_Cost := float64_zero |}
  | Err err => Err (Errorf "failed to get transaction receipt" err)
  | Ok receipt =>
      match node_HeaderByNumber w with
      | Err err => Err (Errorf "failed to get current block header" err)
      | Ok header =>
          match node_TransactionByHash w (Hex.HexToHash txHash) with
          | Err err => Err (Errorf "failed to get transaction" err)
          | Ok tx =>
              Ok {| Status := if r_Status receipt =? 1 then "success" else "failed";
                    ts_BlockNumber := Int.Uint64 (r_BlockNumber receipt);
                    Confirmations :=
                      Int.sub_uint64 (Int.Uint64 (h_Number header))
                                     (Int.Uint64 (r_BlockNumber receipt));
                    ts_GasUsed := r_GasUsed receipt;
                    ts_Cost := Float64 (Quo (Mul (SetInt (tx_gasPrice tx))
                                                 (SetUint64 (r_GasUsed receipt)))
                                            (SetInt (10 ^ 18))) |}
          end
      end
  end.
Proof.
  unfold GetTransactionStatus. cbv zeta.
  rewrite outcome_bind. simpl.
  destruct (node_TransactionReceipt w (Hex.HexToHash txHash)) as [receipt|[]];
    try reflexivity.
  unfold bind, emit; simpl.
  destruct (node_HeaderByNumber w) as [header|]; simpl; [|reflexivity].
  destruct (node_TransactionByHash w (Hex.HexToHash txHash)); reflexivity.
Qed.

(** A lookup reads the chain and nothing else: the receipt, then the
    head and the transaction when there is a receipt. *)
Lemma GetTransactionStatus_reads txHash :
  Forall (fun ev => match ev with
                    | EvTransactionReceipt _ | EvHeaderByNumber
                    | EvTransactionByHash _ => True
                    | _ => False
                    end) (trace (GetTransactionStatus w c txHash)).
Proof.
  unfold GetTransactionStatus, bind, emit. cbv zeta. simpl.
  destruct (node_TransactionReceipt w (Hex.HexToHash txHash)) as [receipt|[]];
    simpl; repeat constructor.
  destruct (node_HeaderByNumber w) as [header|]; simpl; repeat constructor.
  destruct (node_TransactionByHash w (Hex.HexToHash txHash)); simpl;
    repeat constructor.
Qed.

Lemma Uint64_small z : 0 <= z < Int.two64 -> Int.Uint64 z = z.
Proof.
  intros H. unfold Int.Uint64. rewrite Z.abs_eq by lia.
  apply Z.mod_small. exact H.
Qed.

(** C2. For every transaction hash: when the chain has no receipt for
    it, the lookup returns the status "pending" with zero confirmations
    and no error; when it has a receipt, the status is "success" if the
    status flag of the receipt is 1 and "failed" otherwise, and the
    confirmations are the block number of the head minus the block number
    of the receipt, as the unsigned 64-bit numbers they are in the
    client. *)
Theorem status_by_receipt txHash :
  (Unmined w (Hex.HexToHash txHash) ->
   exists st,
     outcome (GetTransactionStatus w c txHash) = Ok st /\
     Status st = "pending"%string /\ Confirmations st = 0) /\
  (forall receipt header tx,
      Mined w (Hex.HexToHash txHash) receipt header tx ->
      exists st,
        outcome (GetTransactionStatus w c txHash) = Ok st /\
        (r_Status receipt = 1 -> Status st = "success"%string) /\
        (r_Status receipt <> 1 -> Status st = "failed"%string) /\
        Confirmations st =
          Int.sub_uint64 (Int.Uint64 (h_Number header))
                         (Int.Uint64 (r_BlockNumber receipt)) /\
        (0 <= r_BlockNumber receipt <= h_Number header ->
         h_Number header < Int.two64 ->
         Confirmations st = h_Number header - r_BlockNumber receipt)).
Proof.
  split.
  - intros Hr. rewrite GetTransactionStatus_outcome, Hr.
    eexists; repeat split.
  - intros receipt header tx (Hr & Hh & Ht).
    rewrite GetTransactionStatus_outcome, Hr, Hh, Ht.
    eexists; split; [reflexivity|]. simpl. repeat split.
    + intros ->. reflexivity.
    + intros Hne. apply Z.eqb_neq in Hne. now rewrite Hne.
    + intros Hle Hlt. rewrite !Uint64_small by lia.
      unfold Int.sub_uint64, Int.wrap_uint64. apply Z.mod_small. lia.
Qed.

(** C10. The confirmations are an unsigned 64-bit difference with no
    guard: in every chain state in which the block number of the receipt
    is above that of the head, the lookup returns neither an error nor
    zero confirmations but the difference wrapped around, 2^64 minus the
    distance. *)
Theorem status_confirmations_wrap txHash receipt header tx :
  Mined w (Hex.HexToHash txHash) receipt header tx ->
  0 <= h_Number header < r_BlockNumber receipt ->
  r_BlockNumber receipt < Int.two64 ->
  exists st,
    outcome (GetTransactionStatus w c txHash) = Ok st /\
    Confirmations st =
      Int.sub_uint64 (Int.Uint64 (h_Number header))
                     (Int.Uint64 (r_BlockNumber receipt)) /\
    Confirmations st = 2 ^ 64 - (r_BlockNumber receipt - h_Number header) /\
    Confirmations st <> 0 /\
    2 ^ 64 - r_BlockNumber receipt <= Confirmations st.
Proof.
  intros (Hr & Hh & Ht) Hlt Hb.
  rewrite GetTransactionStatus_outcome, Hr, Hh, Ht.
  eexists; split; [reflexivity|]. simpl.
  assert (Hc : Int.sub_uint64 (Int.Uint64 (h_Number header))
                              (Int.Uint64 (r_BlockNumber receipt))
               = 2 ^ 64 - (r_BlockNumber receipt - h_Number header)).
  { rewrite !Uint64_small by (unfold Int.two64 in *; lia).
    unfold Int.sub_uint64, Int.wrap_uint64, Int.two64 in *.
    rewrite <- (Z.mod_add _ 1) by lia.
    rewrite Z.mod_small by lia. lia. }
  rewrite Hc. unfold Int.two64 in *. repeat split; lia.
Qed.

End Status.

(** ** Cost *)

Section Cost.

Context {BF : BigFloatOps} (w : World) (c : Client).


(** X28. A deployment and a later lookup of the transaction it
    submitted report the same cost and the same gas used. *)
Corollary cost_agreement (req : Types.DeploymentRequest) stx receipt res
    txHash header st :
  EvWaitMined stx ∈ trace (DeployContract w c req) ->
  node_WaitMined w stx = Ok receipt ->
  outcome (DeployContract w c req) = Ok res ->
  Mined w (Hex.HexToHash txHash) receipt header (stx_tx stx) ->
  outcome (GetTransactionStatus w c txHash) = Ok st ->
  Cost res = ts_Cost st /\ GasUsed res = ts_GasUsed st.
Proof.
  intros Hin Hwait Hres (Hr & Hh & Ht) Hst.
  destruct (DeployRun_waited w c req _ stx (DeployContract_run w c req) Hin)
    as (tx & chain & key & -> & _ & _ & Hout).
  rewrite Hwait, Hres in Hout. injection Hout as ->.
  rewrite GetTransactionStatus_outcome, Hr, Hh, Ht in Hst.
  injection Hst as <-. split; reflexivity.
Qed.

End Cost.

(** In exact arithmetic the cost is the quotient itself. *)
Lemma costInNativeUnit_exact (gasUsed gasPrice : Z) :
  (costInNativeUnit (BF := ExactFloat) gasUsed gasPrice ==
   inject_Z (gasUsed * gasPrice) / inject_Z (10 ^ 18))%Q.
Proof.
  unfold costInNativeUnit, weiPerNativeUnit. simpl.
  rewrite inject_Z_mult. rewrite (Qmult_comm (inject_Z gasUsed)). reflexivity.
Qed.

(** ** Source verification *)

Lemma Hex_HasPrefix_spec (s p : Hex.bytes) :
  Hex.HasPrefix s p = true <-> p `prefix_of` s.
Proof.
  revert s. induction p as [|y p IH]; intros s; simpl.
  - split; [intros _; apply prefix_nil | reflexivity].
  - destruct s as [|x s].
    + split; [discriminate|]. intros [k Hk]. discriminate.
    + rewrite andb_true_iff, IH. split.
      * intros [Hxy Hp]. apply Byte.byte_dec_bl in Hxy as ->.
        now apply prefix_cons.
      * intros [k Hk]. injection Hk as -> ->. split.
        -- now apply Byte.byte_dec_lb.
        -- now exists k.
Qed.

Lemma rangeVerify_spec (deployed : Hex.bytes) (it : list (string * Contract)) :
  rangeVerify deployed it = true <->
  deployed <> [] /\
  exists name contract,
    (name, contract) ∈ it /\ Hex.FromHex (Code contract) `prefix_of` deployed.
Proof.
  induction it as [|[n ct] it IH]; simpl.
  - split; [discriminate|]. intros (_ & n & ct & Hin & _).
    apply elem_of_nil in Hin as [].
  - destruct ((0 <? length deployed)%nat
              && Hex.HasPrefix deployed (Hex.FromHex (Code ct))) eqn:E.
    + apply andb_true_iff in E as [Hlen Hpre].
      split; [intros _|reflexivity]. split.
      * now apply length_ltb_true.
      * exists n, ct. split; [left|]. now apply Hex_HasPrefix_spec.
    + rewrite IH. split.
      * intros (Hne & n' & ct' & Hin & Hp). split; [assumption|].
        exists n', ct'. split; [now right | assumption].
      * intros (Hne & n' & ct' & Hin & Hp). split; [assumption|].
        apply elem_of_cons in Hin as [Heq|Hin]; [|eauto].
        injection Heq as -> ->.
        apply Hex_HasPrefix_spec in Hp. rewrite Hp, andb_true_r in E.
        destruct deployed; [congruence | discriminate].
Qed.

Section Verify.

Context (w : World) (c : Client).

Lemma VerifyContractSource_outcome contractAddress sourceCode constructorArgs :
  outcome (VerifyContractSource w c contractAddress sourceCode constructorArgs) =
  match outcome (CompileContract w c sourceCode) with
  | Err e => Err (Errorf "compilation failed" e)
  | Ok contracts =>
      match node_CodeAt w (Hex.HexToAddress contractAddress) with
      | Err e => Err (Errorf "failed to get deployed bytecode" e)
      | Ok deployedBytecode =>
          Ok (rangeVerify deployedBytecode (range w site_verify contracts))
      end
  end.
Proof.
  unfold VerifyContractSource. cbv zeta.
  rewrite outcome_bind, outcome_wrapErrorf.
  destruct (outcome (CompileContract w c sourceCode)); [|reflexivity].
  unfold bind, emit; simpl.
  destruct (node_CodeAt w (Hex.HexToAddress contractAddress)); reflexivity.
Qed.

(** C4, as the code has it. [VerifyContractSource] returns an error
    only when the compilation fails or the deployed bytecode cannot be
    fetched; otherwise it returns a boolean, which is true exactly when
    the bytecode at the address is not empty and the bytecode of some
    compiled artifact is a prefix of it, and false, with no error, for
    any mismatch. *)
Theorem verify_nonempty_prefix contractAddress sourceCode constructorArgs :
  match outcome (CompileContract w c sourceCode) with
  | Err e =>
      outcome (VerifyContractSource w c contractAddress sourceCode constructorArgs)
      = Err (Errorf "compilation failed" e)
  | Ok contracts =>
      match node_CodeAt w (Hex.HexToAddress contractAddress) with
      | Err e =>
          outcome (VerifyContractSource w c contractAddress sourceCode constructorArgs)
          = Err (Errorf "failed to get deployed bytecode" e)
      | Ok deployed =>
          exists matched : bool,
            outcome (VerifyContractSource w c contractAddress sourceCode
                       constructorArgs) = Ok matched /\
            (matched = true <->
             deployed <> [] /\
             exists name contract,
               contracts !! name = Some contract /\
               Hex.FromHex (Code contract) `prefix_of` deployed)
      end
  end.
Proof.
  rewrite VerifyContractSource_outcome.
  destruct (outcome (CompileContract w c sourceCode)) as [contracts|];
    [|reflexivity].
  destruct (node_CodeAt w (Hex.HexToAddress contractAddress)) as [deployed|];
    [|reflexivity].
  eexists; split; [reflexivity|].
  rewrite rangeVerify_spec.
  split; intros (Hne & n & ct & Hin & Hp); (split; [assumption|]);
    exists n, ct; (split; [|assumption]); now apply (range_lookup w site_verify).
Qed.

(** C9. When the compilation of a source yields an artifact whose
    bytecode is empty, [VerifyContractSource] returns true for every
    address that holds code, whatever that code is: the empty sequence
    is a prefix of it. *)
Theorem verify_empty_artifact contractAddress sourceCode constructorArgs
    (contracts : gmap string Contract) name contract deployed :
  outcome (CompileContract w c sourceCode) = Ok contracts ->
  contracts !! name = Some contract ->
  Hex.FromHex (Code contract) = [] ->
  node_CodeAt w (Hex.HexToAddress contractAddress) = Ok deployed ->
  deployed <> [] ->
  outcome (VerifyContractSource w c contractAddress sourceCode constructorArgs)
  = Ok true.
Proof.
  intros Hc Hin Hempty Hcode Hne.
  rewrite VerifyContractSource_outcome, Hc, Hcode. f_equal.
  apply rangeVerify_spec. split; [assumption|].
  exists name, contract. split.
  - now apply (range_lookup w site_verify).
  - rewrite Hempty. apply prefix_nil.
Qed.

End Verify.

(** ** Supporting facts *)

Section Support.

Context {BF : BigFloatOps} (w : World).

(** X27. The nil dereference after the selection cannot happen: the
    map has an entry when the selection runs, so [DeployContract] never
    panics. *)
Lemma DeployContract_no_panic c (req : Types.DeploymentRequest) msg :
  outcome (DeployContract w c req) <> Err (Panic msg).
Proof.
  apply (wp_run _ (fun m => outcome m <> Err (Panic msg))).
  unfold DeployContract, encodePayload. walk; simpl; try discriminate.
  match goal with
  | Hsz : (size ?m =? 0)%nat = false, Hsel : selectContract _ _ ?m = None |- _ =>
      apply Nat.eqb_neq in Hsz;
      destruct (selectContract_Some w (metadataContractName req) m Hsz)
        as (n & ct & Hs & _); congruence
  end.
Qed.

(** The payload, case by case. *)
Lemma encodePayload_outcome parsedAbi bytecode constructorArgs :
  outcome (encodePayload w parsedAbi bytecode constructorArgs) =
  match constructorArgs with
  | [] => Ok bytecode
  | _ :: _ =>
      match abi_Pack w parsedAbi "" constructorArgs with
      | Ok data => Ok (bytecode ++ data)
      | Err e => Err (Errorf "failed to encode constructor arguments" e)
      end
  end.
Proof.
  unfold encodePayload. destruct constructorArgs as [|v args]; [reflexivity|].
  simpl. destruct (abi_Pack w parsedAbi "" (v :: args)); reflexivity.
Qed.

(** The chain identity of a client is what the node answered when the
    client connected. *)
Lemma NewEthClient_chainID rpcURL c :
  outcome (NewEthClient w rpcURL) = Ok c ->
  rpcURL <> ""%string /\ client c = rpcURL /\ node_ChainID w = Ok (chainID c).
Proof.
  unfold NewEthClient. destruct (String.eqb rpcURL "") eqn:E; [discriminate|].
  apply String.eqb_neq in E. unfold bind, emit; simpl.
  destruct (ethclient_Dial w rpcURL); simpl; [|discriminate].
  destruct (node_ChainID w); simpl; [|discriminate].
  intros [= <-]. auto.
Qed.

(** The service never hands the client a chain identifier 0: it puts 1
    in its place, and 4000000 in place of a gas limit 0. Through the
    service a deployment is therefore bound to the chain of the request,
    or to chain 1. *)
Lemma service_deploy_chain c contract (req : Contracts.DeploymentRequest) ev chain :
  ev ∈ trace (DeployContract w c (Contracts.deploymentParameters contract req)) ->
  boundChain ev = Some chain ->
  chain = if Contracts.ChainID req =? 0 then 1 else Contracts.ChainID req.
Proof.
  intros Hin Hb.
  destruct (DeployRun_bound w c _ _ ev chain (DeployContract_run w c _) Hin Hb)
    as (tx & key & [? ? ? ? ? ? _ _ _ _ _ _ Hchain _ _ _ _ _ _ _] & _).
  subst chain. simpl.
  destruct (Contracts.ChainID req =? 0) eqn:E; [reflexivity|]. now rewrite E.
Qed.

End Support.

Example FromHex_prefixed :
  Hex.FromHex "0x6001fF" = [Byte.x60; Byte.x01; Byte.xff].
Proof. reflexivity. Qed.

Example FromHex_odd : Hex.FromHex "abc" = [Byte.x0a; Byte.xbc].
Proof. reflexivity. Qed.

Example Contains_is_case_sensitive :
  Strings.Contains "tmp.sol:Token" "token" = false /\
  Strings.Contains "tmp.sol:Token" "Token" = true.
Proof. split; reflexivity. Qed.

(** A hint that is part of two names selects the one visited first. *)
Example select_substring_hint :
  selectContract (Scenario.world Scenario.mined) "Token" Scenario.compiled
  = Some ("tmp.sol:IToken"%string, Scenario.iface).
Proof. reflexivity. Qed.

(** 21000 gas at 20 gwei cost 0.00042 of the native unit: the binary64
    number next to it. *)
Example cost_of_a_transfer :
  costInNativeUnit (BF := GoFloat.ops) 21000 20000000000
  = S754_finite false 7747632510958012 (-64).
Proof. reflexivity. Qed.

Example confirmations_of_a_lagging_head :
  Int.sub_uint64 (Int.Uint64 5) (Int.Uint64 10) = 18446744073709551611.
Proof. reflexivity. Qed.

(** ** The scenario, run *)

Import Scenario.

Ltac visited :=
  apply list_elem_of_In; vm_compute;
  repeat (first [left; reflexivity | right]).

Lemma deploy_timeout_hash_only_witness :
  outcome (DeployContract (BF := GoFloat.ops) (world stalled) conn request) =
    Ok (@Build_DeploymentResult GoFloat.ops
          (Hex.HashHex (tx_Hash (world stalled) signed)) "" 0 0 None
          (S754_zero false)) /\
  Hex.HashHex (tx_Hash (world stalled) signed) <> ""%string /\
  node_SendTransaction (world stalled) signed = Ok tt.
Proof.
  apply (deploy_timeout_hash_only (BF := GoFloat.ops) (world stalled) conn request
           signed (External "context deadline exceeded")).
  - visited.
  - reflexivity.
Defined.

Lemma status_by_receipt_witness :
  (exists st,
      outcome (GetTransactionStatus (BF := GoFloat.ops) (world stalled) conn "0x6080604052")
      = Ok st /\ Status st = "pending"%string /\ Confirmations st = 0) /\
  (exists st,
      outcome (GetTransactionStatus (BF := GoFloat.ops) (world mined) conn "0x6080604052")
      = Ok st /\ Status st = "success"%string /\ Confirmations st = 2).
Proof.
  split.
  - apply (proj1 (status_by_receipt (BF := GoFloat.ops) (world stalled) conn
                    "0x6080604052")).
    reflexivity.
  - destruct (proj2 (status_by_receipt (BF := GoFloat.ops) (world mined) conn
                       "0x6080604052")
                receipt {| h_Number := 12 |} creation
                (conj eq_refl (conj eq_refl eq_refl)))
      as (st & Hout & Hok & _ & _ & Hconf).
    exists st. split; [exact Hout|]. split.
    + apply Hok. reflexivity.
    + rewrite Hconf; [reflexivity | simpl; lia | reflexivity].
Defined.


Lemma deploy_payload_witness :
  (exists contracts name contract abiJSON parsedAbi args,
      outcome (CompileContract (world mined) conn (Types.ContractCode request))
        = Ok contracts /\
      selectContract (world mined) (metadataContractName request) contracts
        = Some (name, contract) /\
      json_Marshal (world mined) (AbiDefinition (Info contract)) = Ok abiJSON /\
      abi_JSON (world mined) abiJSON = Ok parsedAbi /\
      constructorArgsOf (world mined) request = Ok args /\
      ((args = [] /\ Hex.FromHex "0x6080604052" = Hex.FromHex (Code contract)) \/
       (args <> [] /\
        exists enc, abi_Pack (world mined) parsedAbi "" args = Ok enc /\
                    Hex.FromHex "0x6080604052" = Hex.FromHex (Code contract) ++ enc))).
Proof.
  apply (deploy_payload (BF := GoFloat.ops) (world mined) conn request
           (EvSignTx creation 1337) (Hex.FromHex "0x6080604052")).
  - visited.
  - reflexivity.
Defined.


Lemma deploy_compile_error_stops_witness :
  (exists e, outcome (DeployContract (BF := GoFloat.ops) (world broken) conn request)
             = Err e /\ CompileError e) /\
  trace (DeployContract (BF := GoFloat.ops) (world broken) conn request)
    = trace (CompileContract (world broken) conn (Types.ContractCode request)) /\
  Forall (fun ev => builderStep ev = false)
    (trace (DeployContract (BF := GoFloat.ops) (world broken) conn request)).
Proof.
  apply (deploy_compile_error_stops (BF := GoFloat.ops) (world broken) conn request).
  left. eexists. reflexivity.
Defined.


Lemma verify_empty_artifact_witness :
  outcome (VerifyContractSource (world unrelated) conn
             "0x00000000000000000000000000000000000000cc"
             "interface IToken {}" "")
  = Ok true.
Proof.
  apply (verify_empty_artifact (world unrelated) conn
           "0x00000000000000000000000000000000000000cc" "interface IToken {}" ""
           onlyIface "tmp.sol:IToken" iface (Hex.FromHex "0xdeadbeef")).
  - reflexivity.
  - reflexivity.
  - reflexivity.
  - reflexivity.
  - discriminate.
Defined.

Lemma status_confirmations_wrap_witness :
  exists st,
    outcome (GetTransactionStatus (BF := GoFloat.ops) (world lagging) conn "0x6080604052")
      = Ok st /\
    Confirmations st = Int.sub_uint64 (Int.Uint64 5) (Int.Uint64 10) /\
    Confirmations st = 2 ^ 64 - (10 - 5) /\
    Confirmations st <> 0 /\
    2 ^ 64 - 10 <= Confirmations st.
Proof.
  apply (status_confirmations_wrap (BF := GoFloat.ops) (world lagging) conn
           "0x6080604052" receipt {| h_Number := 5 |} creation).
  - repeat split.
  - simpl. lia.
  - reflexivity.
Defined.

(** C4, as the claim states it, fails for an address that holds no
    code and a source with an interface: the empty bytecode of the
    interface is a prefix of the empty deployed bytecode, and the answer
    is false. *)
Lemma verify_prefix_counterexample :
  ~ (forall (w : World) (c : Client) contractAddress sourceCode constructorArgs
            (contracts : gmap string Contract) deployed,
        outcome (CompileContract w c sourceCode) = Ok contracts ->
        node_CodeAt w (Hex.HexToAddress contractAddress) = Ok deployed ->
        (outcome (VerifyContractSource w c contractAddress sourceCode constructorArgs)
         = Ok true <->
         exists name contract,
           contracts !! name = Some contract /\
           Hex.FromHex (Code contract) `prefix_of` deployed)).
Proof.
  intros H.
  specialize (H (world vacant) conn "0x00000000000000000000000000000000000000cc"
                "interface IToken {}"%string ""%string onlyIface []
                eq_refl eq_refl).
  destruct H as [_ H].
  assert (Hex : exists name contract,
             onlyIface !! name = Some contract /\
             Hex.FromHex (Code contract) `prefix_of` []).
  { exists "tmp.sol:IToken"%string, iface. split; [reflexivity|].
    apply prefix_nil. }
  specialize (H Hex). vm_compute in H. discriminate H.
Qed.

Lemma verify_nonempty_prefix_witness :
  exists matched : bool,
    outcome (VerifyContractSource (world mined) conn
               "0x00000000000000000000000000000000000000cc"
               "contract Token {} interface IToken {}" "") = Ok matched /\
    (matched = true <->
     Hex.FromHex "0x6080604052" <> [] /\
     exists name contract,
       compiled !! name = Some contract /\
       Hex.FromHex (Code contract) `prefix_of` Hex.FromHex "0x6080604052").
Proof.
  exact (verify_nonempty_prefix (world mined) conn
           "0x00000000000000000000000000000000000000cc"
           "contract Token {} interface IToken {}" "").
Defined.

(** * More of the client *)

(** ** Connecting *)

Section Connect.

Context (w : World).

(** X1. [NewEthClient] yields a client exactly when the URL is not
    empty, the dial succeeds and the node answers its chain ID; the client
    carries that URL and that chain ID. With an empty URL it fails before
    it dials, and after a failed dial it does not ask for the chain ID. *)
Theorem NewEthClient_connects rpcURL :
  (rpcURL = ""%string ->
   NewEthClient w rpcURL = ([], Err (New "Ethereum RPC URL is required"))) /\
  (forall c,
      outcome (NewEthClient w rpcURL) = Ok c <->
      rpcURL <> ""%string /\ ethclient_Dial w rpcURL = Ok tt /\
      node_ChainID w = Ok (chainID c) /\ client c = rpcURL) /\
  (forall e,
      ethclient_Dial w rpcURL = Err e ->
      trace (NewEthClient w rpcURL) = [EvDial rpcURL] \/
      trace (NewEthClient w rpcURL) = []).
Proof.
  split; [|split].
  - intros H. subst rpcURL. reflexivity.
  - intros c. unfold NewEthClient. split.
    + destruct (String.eqb rpcURL "") eqn:E; [discriminate|].
      apply String.eqb_neq in E. unfold bind, emit; simpl.
      destruct (ethclient_Dial w rpcURL) as [[]|]; simpl; [|discriminate].
      destruct (node_ChainID w); simpl; [|discriminate].
      intros [= <-]. auto.
    + intros (Hne & Hd & Hc & Hu). apply String.eqb_neq in Hne. rewrite Hne.
      unfold bind, emit; simpl. rewrite Hd, Hc. simpl.
      destruct c; simpl in *; subst; reflexivity.
  - intros e He. unfold NewEthClient.
    destruct (String.eqb rpcURL ""); [right; reflexivity|].
    left. unfold bind, emit; simpl. rewrite He. reflexivity.
Qed.

End Connect.

(** ** The signing key *)

(** X2. The key may be given with or without the prefix [0x]: two
    environments that differ only in that prefix resolve the same key, or
    fail alike. An unset or empty variable is an error of its own. *)
Theorem GetPrivateKey_prefix (w1 w2 : World) (c : Client) (hex : string) :
  os_Getenv w1 "ETH_PRIVATE_KEY" = String "0" (String "x" hex) ->
  os_Getenv w2 "ETH_PRIVATE_KEY" = hex ->
  hex <> ""%string ->
  Strings.HasPrefix hex "0x" = false ->
  crypto_HexToECDSA w1 hex = crypto_HexToECDSA w2 hex ->
  GetPrivateKey w1 c = GetPrivateKey w2 c /\
  outcome (GetPrivateKey w1 c) =
    match crypto_HexToECDSA w1 hex with
    | Ok key => Ok key
    | Err e => Err (Errorf "invalid private key" e)
    end.
Proof.
  intros H1 H2 Hne Hp Hk. apply String.eqb_neq in Hne.
  unfold GetPrivateKey. rewrite H1, H2, Hp, Hne.
  unfold bind, emit. simpl.
  rewrite Hk. destruct (crypto_HexToECDSA w2 hex); auto.
Qed.

(** X3. With the variable unset, no key is resolved, and a deployment
    asks the node for nothing: no nonce, no gas price, no signature, no
    submission. It fails. *)
Theorem DeployContract_without_key {BF : BigFloatOps} (w : World) (c : Client)
    (req : Types.DeploymentRequest) :
  os_Getenv w "ETH_PRIVATE_KEY" = ""%string ->
  (exists e, outcome (DeployContract w c req) = Err e) /\
  Forall (fun ev => compilerStep ev = true \/ ev = EvGetenv "ETH_PRIVATE_KEY")
    (trace (DeployContract w c req)).
Proof.
  intros Henv.
  pose proof (CompileContract_compilerSteps w c (Types.ContractCode req)) as Hc.
  assert (Hk : GetPrivateKey w c
               = ([EvGetenv "ETH_PRIVATE_KEY"],
                  Err (New "ETH_PRIVATE_KEY environment variable not set"))).
  { unfold GetPrivateKey, bind, emit. simpl. rewrite Henv. reflexivity. }
  apply (wp_run _ (fun m =>
           (exists e, outcome m = Err e) /\
           Forall (fun ev => compilerStep ev = true \/ ev = EvGetenv "ETH_PRIVATE_KEY")
             (trace m))).
  unfold DeployContract, encodePayload. walk; simpl.
  all: try match goal with
           | H : outcome (GetPrivateKey _ _) = Ok _ |- _ =>
               rewrite Hk in H; discriminate H
           end.
  all: split; [eexists; reflexivity|].
  all: rewrite ?Hk; simpl; repeat (apply Forall_app; split);
       try (eapply Forall_impl; [exact Hc | intros; left; assumption]);
       repeat (apply List.Forall_cons;
               [first [right; reflexivity | left; reflexivity]|]);
       try apply List.Forall_nil.
Qed.

Import Steps.

(** ** Compilation *)

Section CompileMore.

Context (w : World) (c : Client).

(** X4. The temporary file of a compilation is scoped: once created it
    is written, closed and compiled in that order as far as each step
    succeeds, and it is removed exactly once, as the last call, whichever
    way the compilation ends. When the file cannot be created nothing else
    is called. *)
Theorem CompileContract_scoped_file src :
  match os_CreateTemp w "solidity-*.sol" with
  | Ok file =>
      exists steps,
        trace (CompileContract w c src)
          = EvCreateTemp "solidity-*.sol" :: steps ++ [EvRemove file] /\
        steps `prefix_of` [EvWriteString file src; EvClose file; EvCompileSolidity file] /\
        steps <> []
  | Err e =>
      CompileContract w c src
        = ([EvCreateTemp "solidity-*.sol"],
           Err (Errorf "failed to create temporary file" e))
  end.
Proof.
  unfold CompileContract, defer, bind, emit, ret.
  destruct (os_CreateTemp w "solidity-*.sol") as [file|e]; simpl; [|reflexivity].
  destruct (os_WriteString w file src); simpl.
  - destruct (os_Close w file); simpl.
    + destruct (solc_CompileSolidity w file src); simpl;
        (eexists [_; _; _]; split; [reflexivity|split; [reflexivity|discriminate]]).
    + eexists [_; _]. split; [reflexivity|]. split; [|discriminate].
      eexists [_]. reflexivity.
  - eexists [_]. split; [reflexivity|]. split; [|discriminate].
    eexists [_; _]. reflexivity.
Qed.

(** X5. The toolchain runs only on a file that holds the source and is
    closed, and what [CompileContract] then returns is what the toolchain
    returned: its contracts, or its error behind "compilation failed". *)
Theorem CompileContract_toolchain src file :
  EvCompileSolidity file ∈ trace (CompileContract w c src) ->
  os_CreateTemp w "solidity-*.sol" = Ok file /\
  os_WriteString w file src = Ok tt /\
  os_Close w file = Ok tt /\
  outcome (CompileContract w c src) =
    match solc_CompileSolidity w file src with
    | Ok contracts => Ok contracts
    | Err e => Err (Errorf "compilation failed" e)
    end.
Proof.
  unfold CompileContract, defer, bind, emit, ret.
  destruct (os_CreateTemp w "solidity-*.sol") as [f|e]; simpl.
  2: { intros H. apply list_elem_of_In in H. simpl in H.
       destruct H as [H|[]]; discriminate. }
  destruct (os_WriteString w f src) as [[]|] eqn:Ew; simpl.
  2: { intros H. apply list_elem_of_In in H. simpl in H.
       destruct H as [H|[H|[H|[]]]]; discriminate. }
  destruct (os_Close w f) as [[]|] eqn:Ec; simpl.
  2: { intros H. apply list_elem_of_In in H. simpl in H.
       destruct H as [H|[H|[H|[H|[]]]]]; discriminate. }
  assert (Hf : forall t : list Event,
             EvCompileSolidity file ∈
               EvCreateTemp "solidity-*.sol" :: EvWriteString f src :: EvClose f
                 :: EvCompileSolidity f :: t ->
             (forall ev, ev ∈ t -> ev = EvRemove f) -> file = f).
  { intros t H Ht. apply list_elem_of_In in H. simpl in H.
    destruct H as [H|[H|[H|[H|H]]]]; try discriminate.
    - now injection H.
    - apply list_elem_of_In, Ht in H. discriminate. }
  destruct (solc_CompileSolidity w f src) eqn:Es; simpl; intros H;
    (assert (file = f) as ->
       by (apply (Hf _ H); intros ev Hev;
           apply list_elem_of_In in Hev; simpl in Hev;
           destruct Hev as [<-|[]]; reflexivity));
    rewrite Ew, Ec, Es; auto.
Qed.

End CompileMore.

(** ** Deployment, further *)

Lemma unbound_filter (p : Event -> bool) (pre : list Event) :
  (forall ev, p ev = true -> boundChain ev <> None) ->
  Forall (fun ev => boundChain ev = None) pre ->
  List.filter p pre = [].
Proof.
  intros Hp. induction 1 as [|ev pre Hev _ IH]; simpl; [reflexivity|].
  destruct (p ev) eqn:E; [|exact IH].
  destruct (Hp ev E Hev).
Qed.

Section DeployMore.

Context {BF : BigFloatOps} (w : World) (c : Client).

Lemma DeployRun_sent req m stx :
  DeployRun w c req m -> EvSendTransaction stx ∈ trace m ->
  exists tx chain key, stx = sign tx chain key /\ Prepared w c req tx chain key.
Proof.
  intros Hrun Hin.
  assert (Hb : boundChain (EvSendTransaction stx) = Some (stx_chainID stx))
    by reflexivity.
  destruct Hrun as [pre e Hpre | pre tx ch key e Hpre Hp _
                   | pre tx ch key e Hpre Hp _
                   | pre tx ch key e Hpre Hp _ _
                   | pre tx ch key r Hpre Hp _ _]; simpl in Hin.
  1: destruct (unbound_pre _ _ _ Hpre Hin Hb).
  all: apply elem_of_app in Hin as [Hin|Hin];
       [destruct (unbound_pre _ _ _ Hpre Hin Hb)|];
       apply list_elem_of_In in Hin; simpl in Hin;
       repeat (destruct Hin as [Hin|Hin]; [try discriminate Hin|]);
       try contradiction.
  all: injection Hin as <-; eauto.
Qed.

(** X6. Whatever [DeployContract] submits is a contract creation that
    transfers no value: it has no recipient, the gas limit of the request,
    the gas price the node suggested, and the pending nonce of the address
    of the key that [GetPrivateKey] resolved, which is the key that
    signs. *)
Theorem DeployContract_creation (req : Types.DeploymentRequest) stx :
  EvSendTransaction stx ∈ trace (DeployContract w c req) ->
  tx_to (stx_tx stx) = None /\
  tx_value (stx_tx stx) = 0 /\
  tx_gas (stx_tx stx) = Types.GasLimit req /\
  node_SuggestGasPrice w = Ok (tx_gasPrice (stx_tx stx)) /\
  outcome (GetPrivateKey w c) = Ok (stx_key stx) /\
  node_PendingNonceAt w (crypto_PubkeyToAddress w {| of_key := stx_key stx |})
    = Ok (tx_nonce (stx_tx stx)).
Proof.
  intros Hin.
  destruct (DeployRun_sent req _ stx (DeployContract_run w c req) Hin)
    as (tx & chain & key & -> & Hp).
  destruct Hp. simpl. auto 10.
Qed.

(** X7. A call of [DeployContract] signs at most once, submits at most
    once and waits at most once: it never retries and never submits a
    second transaction. *)
Theorem DeployContract_single_submission (req : Types.DeploymentRequest) :
  (length (List.filter isSignature (trace (DeployContract w c req))) <= 1)%nat /\
  (length (List.filter isSubmission (trace (DeployContract w c req))) <= 1)%nat /\
  (length (List.filter isReceiptWait (trace (DeployContract w c req))) <= 1)%nat.
Proof.
  assert (Hs : forall ev, isSignature ev = true -> boundChain ev <> None)
    by (intros []; simpl; congruence).
  assert (Hu : forall ev, isSubmission ev = true -> boundChain ev <> None)
    by (intros []; simpl; congruence).
  assert (Hw : forall ev, isReceiptWait ev = true -> boundChain ev <> None)
    by (intros []; simpl; congruence).
  destruct (DeployContract_run w c req)
    as [pre e Hpre | pre tx ch key e Hpre _ _ | pre tx ch key e Hpre _ _
       | pre tx ch key e Hpre _ _ _ | pre tx ch key r Hpre _ _ _];
    simpl; rewrite ?List.filter_app,
      ?(unbound_filter _ _ Hs Hpre), ?(unbound_filter _ _ Hu Hpre),
      ?(unbound_filter _ _ Hw Hpre); simpl; lia.
Qed.

(** X8. When the contract selected for deployment has no bytecode, as
    for an interface, [DeployContract] fails with "empty bytecode" and
    stops there: no key is resolved and nothing is asked of the node. *)
Theorem DeployContract_empty_bytecode (req : Types.DeploymentRequest)
    (contracts : gmap string Contract) name contract abiJSON parsedAbi :
  outcome (CompileContract w c (Types.ContractCode req)) = Ok contracts ->
  selectContract w (metadataContractName req) contracts = Some (name, contract) ->
  json_Marshal w (AbiDefinition (Info contract)) = Ok abiJSON ->
  abi_JSON w abiJSON = Ok parsedAbi ->
  Hex.FromHex (Code contract) = [] ->
  outcome (DeployContract w c req) = Err (New "empty bytecode") /\
  trace (DeployContract w c req)
    = trace (CompileContract w c (Types.ContractCode req)).
Proof.
  intros Hc Hsel Hm Ha Hb.
  assert (Hsz : (size contracts =? 0)%nat = false).
  { apply Nat.eqb_neq. intros Hz.
    apply map_size_empty_iff in Hz. subst contracts.
    unfold selectContract in Hsel.
    assert (Hr : forall site, range w site (∅ : gmap string Contract) = []).
    { intros site. apply Permutation_nil_r.
      rewrite (range_perm w site ∅), map_to_list_empty. reflexivity. }
    rewrite !Hr in Hsel. simpl in Hsel.
    destruct (negb _) in Hsel; discriminate. }
  unfold DeployContract.
  destruct (CompileContract w c (Types.ContractCode req)) as [t r].
  simpl in Hc. subst r. simpl. rewrite Hsz, Hsel. simpl.
  rewrite Hm. simpl. rewrite Ha. simpl. rewrite Hb. simpl.
  split; [reflexivity|]. now rewrite !app_nil_r.
Qed.

End DeployMore.

(** ** Hexadecimal text *)

Lemma hex_byte (x : Byte.byte) :
  match Hex.fromHexChar (Hex.hexDigit (Hex.Z_of_byte x / 16)),
        Hex.fromHexChar (Hex.hexDigit (Hex.Z_of_byte x mod 16)) with
  | Some a, Some b => Hex.byte_of_Z (16 * a + b) = x
  | _, _ => False
  end.
Proof. destruct x; vm_compute; reflexivity. Qed.

Lemma Hex2Bytes_EncodeToString (b : Hex.bytes) :
  Hex.Hex2Bytes (Hex.EncodeToString b) = b.
Proof.
  induction b as [|x b IH]; [reflexivity|].
  cbn [Hex.EncodeToString Hex.Hex2Bytes].
  pose proof (hex_byte x) as Hx.
  destruct (Hex.fromHexChar (Hex.hexDigit (Hex.Z_of_byte x / 16))); [|contradiction].
  destruct (Hex.fromHexChar (Hex.hexDigit (Hex.Z_of_byte x mod 16))); [|contradiction].
  now rewrite Hx, IH.
Qed.

Lemma length_EncodeToString (b : Hex.bytes) :
  String.length (Hex.EncodeToString b) = (2 * length b)%nat.
Proof. induction b as [|x b IH]; simpl; [reflexivity|]. rewrite IH. lia. Qed.

(** Decoding the text of [hexutil.Encode] gives the bytes back. *)
Lemma FromHex_Encode (b : Hex.bytes) : Hex.FromHex (Hex.Encode b) = b.
Proof.
  unfold Hex.FromHex, Hex.Encode.
  change (Hex.has0xPrefix (String "0" (String "x" (Hex.EncodeToString b)))) with true.
  cbn [Hex.drop2]. rewrite length_EncodeToString.
  replace (Nat.odd (2 * length b)) with false.
  - apply Hex2Bytes_EncodeToString.
  - symmetry. rewrite <- Nat.negb_even, Nat.even_mul. reflexivity.
Qed.

Lemma SetBytes_exact n (b : Hex.bytes) : length b = n -> Hex.SetBytes n b = b.
Proof.
  intros <-. unfold Hex.SetBytes. rewrite Nat.sub_diag. simpl.
  now rewrite Nat.sub_diag.
Qed.

Lemma FromHex_0x (text : string) :
  Hex.has0xPrefix text = false ->
  Hex.FromHex (String "0" (String "x" text)) = Hex.FromHex text.
Proof.
  intros H. unfold Hex.FromHex at 1.
  change (Hex.has0xPrefix (String "0" (String "x" text))) with true.
  cbn [Hex.drop2]. unfold Hex.FromHex. now rewrite H.
Qed.

(** ** The read paths *)

Section Reads.

Context {BF : BigFloatOps} (w : World) (c : Client).

(** X9. [EstimateDeploymentCost] returns a cost exactly when the source
    compiles to at least one contract, a key is resolved, and the node
    answers the gas estimate and the gas price; the cost is then the gas
    the node estimated for a message from the address of the key carrying
    the bytecode of the first contract visited, at the gas price the node
    suggested, in the native unit. Nothing else is asked of the artifact:
    constructor arguments and name hints play no part, and an empty
    bytecode is priced like any other. *)
Theorem EstimateDeploymentCost_priced contractCode cost :
  outcome (EstimateDeploymentCost w c contractCode) = Ok cost <->
  exists (contracts : gmap string Contract) key gasLimit gasPrice,
    outcome (CompileContract w c contractCode) = Ok contracts /\
    size contracts <> 0%nat /\
    outcome (GetPrivateKey w c) = Ok key /\
    node_EstimateGas w (crypto_PubkeyToAddress w {| of_key := key |})
      (estimatedPayload w contracts) = Ok gasLimit /\
    node_SuggestGasPrice w = Ok gasPrice /\
    cost = costInNativeUnit gasLimit gasPrice.
Proof.
  split.
  - revert cost.
    apply (wp_run _ (fun m => forall cost, outcome m = Ok cost -> _)).
    unfold EstimateDeploymentCost. walk; simpl; intros cost Hc; try discriminate Hc.
    injection Hc as <-.
    match goal with H : (size _ =? 0)%nat = false |- _ => apply Nat.eqb_neq in H end.
    eexists _, _, _, _. repeat split; eauto.
  - intros (contracts & key & gasLimit & gasPrice & Hc & Hsz & Hk & Hg & Hp & ->).
    apply Nat.eqb_neq in Hsz. unfold estimatedPayload in Hg.
    unfold EstimateDeploymentCost.
    rewrite outcome_bind, outcome_wrapErrorf, Hc, Hsz.
    rewrite outcome_bind, outcome_wrapErrorf, Hk.
    destruct (range w site_estimate contracts) as [|[n ct] it];
      rewrite Hg, Hp; reflexivity.
Qed.

(** X10. Estimation, status lookup and source verification only read:
    none of them signs, submits or waits for a transaction. *)
Theorem read_paths_only_read contractCode txHash contractAddress sourceCode
    constructorArgs :
  Forall (fun ev => readsOnly ev = true)
    (trace (EstimateDeploymentCost w c contractCode)) /\
  Forall (fun ev => readsOnly ev = true)
    (trace (GetTransactionStatus w c txHash)) /\
  Forall (fun ev => readsOnly ev = true)
    (trace (VerifyContractSource w c contractAddress sourceCode constructorArgs)).
Proof.
  assert (Hcomp : forall src,
             Forall (fun ev => readsOnly ev = true) (trace (CompileContract w c src))).
  { intros src. eapply Forall_impl; [apply CompileContract_compilerSteps|].
    intros []; simpl; congruence. }
  split; [|split].
  - apply (wp_run _ (fun m => Forall (fun ev => readsOnly ev = true) (trace m))).
    unfold EstimateDeploymentCost. walk; simpl.
    all: rewrite ?GetPrivateKey_trace;
         repeat (apply Forall_app; split); try apply Hcomp;
         repeat (apply List.Forall_cons; [reflexivity|]); apply List.Forall_nil.
  - eapply Forall_impl; [apply GetTransactionStatus_reads|].
    intros []; simpl; tauto.
  - unfold VerifyContractSource. cbv zeta.
    rewrite trace_bind, trace_wrapErrorf, outcome_wrapErrorf.
    apply Forall_app; split; [apply Hcomp|].
    destruct (outcome (CompileContract w c sourceCode)); [|constructor].
    unfold bind, emit; simpl.
    destruct (node_CodeAt w _); simpl; repeat constructor.
Qed.

(** X11. A source with no contract is an error for deployment and
    estimation, but not for verification, which answers false. *)
Theorem no_contracts contractAddress sourceCode constructorArgs deployed
    (req : Types.DeploymentRequest) :
  Types.ContractCode req = sourceCode ->
  outcome (CompileContract w c sourceCode) = Ok ∅ ->
  node_CodeAt w (Hex.HexToAddress contractAddress) = Ok deployed ->
  outcome (DeployContract w c req) = Err (New "no contracts found in source code") /\
  outcome (EstimateDeploymentCost w c sourceCode)
    = Err (New "no contracts found in source code") /\
  outcome (VerifyContractSource w c contractAddress sourceCode constructorArgs)
    = Ok false.
Proof.
  intros <- Hc Hcode. split; [|split].
  - unfold DeployContract. rewrite outcome_bind, outcome_wrapErrorf, Hc.
    reflexivity.
  - unfold EstimateDeploymentCost. rewrite outcome_bind, outcome_wrapErrorf, Hc.
    reflexivity.
  - rewrite VerifyContractSource_outcome, Hc, Hcode. f_equal.
    assert (Hr : range w site_verify (∅ : gmap string Contract) = []).
    { apply Permutation_nil_r.
      rewrite (range_perm w site_verify ∅), map_to_list_empty. reflexivity. }
    now rewrite Hr.
Qed.

(** X12. A transaction hash may be given with or without the prefix
    [0x]: the lookup is the same. *)
Theorem GetTransactionStatus_hash_text text :
  Hex.has0xPrefix text = false ->
  GetTransactionStatus w c (String "0" (String "x" text))
  = GetTransactionStatus w c text.
Proof.
  intros H. unfold GetTransactionStatus, Hex.HexToHash.
  now rewrite (FromHex_0x text H).
Qed.

End Reads.

(** X13. The hash text a deployment returns names the transaction it
    submitted: a status lookup for that text, at any later state of the
    node, asks for the receipt of the hash of that very transaction. *)
Theorem deploy_then_status {BF : BigFloatOps} (w later : World) (c : Client)
    (req : Types.DeploymentRequest) stx res :
  EvWaitMined stx ∈ trace (DeployContract w c req) ->
  outcome (DeployContract w c req) = Ok res ->
  length (tx_Hash w stx) = Hex.HashLength ->
  exists rest,
    trace (GetTransactionStatus later c (TxHash res))
    = EvTransactionReceipt (tx_Hash w stx) :: rest.
Proof.
  intros Hin Hres Hlen.
  destruct (DeployRun_waited w c req _ stx (DeployContract_run w c req) Hin)
    as (tx & chain & key & -> & _ & _ & Hout).
  assert (Hh : TxHash res = Hex.HashHex (tx_Hash w (sign tx chain key))).
  { rewrite Hres in Hout.
    destruct (node_WaitMined w (sign tx chain key)); injection Hout as ->;
      reflexivity. }
  rewrite Hh. unfold GetTransactionStatus, Hex.HexToHash, Hex.HashHex.
  rewrite FromHex_Encode. unfold Hex.BytesToHash.
  rewrite (SetBytes_exact _ _ Hlen).
  cbv zeta. rewrite trace_bind. simpl. eexists. reflexivity.
Qed.

(** X14. For a source with a single contract and a request without
    constructor arguments, estimation prices exactly the payload that
    deployment signs and submits. *)
Theorem estimate_prices_deployed_payload {BF : BigFloatOps} (w : World) (c : Client)
    (req : Types.DeploymentRequest) name contract ev data from priced :
  outcome (CompileContract w c (Types.ContractCode req)) = Ok {[ name := contract ]} ->
  constructorArgsOf w req = Ok [] ->
  ev ∈ trace (DeployContract w c req) ->
  payload ev = Some data ->
  EvEstimateGas from priced ∈ trace (EstimateDeploymentCost w c (Types.ContractCode req)) ->
  priced = data /\ data = Hex.FromHex (Code contract).
Proof.
  intros Hc Hargs Hin Hp He.
  assert (Hr : forall site,
             range w site ({[ name := contract ]} : gmap string Contract)
             = [(name, contract)]).
  { intros site. apply Permutation_singleton_r.
    rewrite (range_perm w site), map_to_list_singleton. reflexivity. }
  assert (Hd : data = Hex.FromHex (Code contract)).
  { assert (Hb : exists chain, boundChain ev = Some chain)
      by (destruct ev; simpl in *; try discriminate Hp; eauto).
    destruct Hb as [chain Hb].
    destruct (DeployRun_bound w c req _ ev chain (DeployContract_run w c req) Hin Hb)
      as (tx & key & [cs n ct j abi args H1 H2 _ _ _ _ _ _ _ _ _ _ Ha Hdata] & Hpay).
    rewrite Hc in H1. injection H1 as <-.
    rewrite Hargs in Ha. injection Ha as <-.
    assert (ct = contract) as ->.
    { unfold selectContract in H2. rewrite !Hr in H2. simpl in H2.
      destruct (negb _) in H2; simpl in H2;
        [destruct (Strings.Contains name _) in H2|]; congruence. }
    destruct Hdata as [[_ Hdata]|[Hne _]]; [|congruence].
    congruence. }
  split; [|exact Hd]. rewrite Hd. clear Hin Hp Hd.
  revert He.
  apply (wp_run _ (fun m => EvEstimateGas from priced ∈ trace m -> _)).
  unfold EstimateDeploymentCost. walk; simpl; intros He.
  all: rewrite ?GetPrivateKey_trace in He.
  all: pose proof (CompileContract_compilerSteps w c (Types.ContractCode req)) as Hcs;
       rewrite Forall_forall in Hcs.
  all: repeat (apply elem_of_app in He as [He|He]);
       try (apply Hcs in He; discriminate He);
       try (apply list_elem_of_In in He; simpl in He;
            repeat (destruct He as [He|He]; [try discriminate He|]);
            try contradiction).
  all: match goal with
       | H : outcome (CompileContract _ _ _) = Ok ?a |- _ =>
           rewrite Hc in H; injection H as <-
       end.
  all: rewrite Hr in He; injection He as _ <-; reflexivity.
Qed.

(** * Contract calls *)

Section Calls.

Import Call.

Context (w : World) (n : CallNode) (c : Client).

(** X15. The text [InteractWithContract] returns is the [0x] form of
    the bytes the node answered: it is never empty, and decoding it gives
    those bytes back. The call went to the address the text names, with
    the encoding of the method and its parameters. *)
Theorem InteractWithContract_result contractAddress abiJSON methodName params text :
  snd (InteractWithContract w n c contractAddress abiJSON methodName params) = Ok text ->
  exists parsedABI data result,
    abi_JSON w abiJSON = Ok parsedABI /\
    abi_Pack w parsedABI methodName params = Ok data /\
    node_CallContract n (Hex.HexToAddress contractAddress) data = Ok result /\
    fst (InteractWithContract w n c contractAddress abiJSON methodName params)
      = [EvCallContract (Hex.HexToAddress contractAddress) data] /\
    text = Hex.Encode result /\
    Hex.FromHex text = result /\
    text <> ""%string.
Proof.
  unfold InteractWithContract.
  destruct (abi_JSON w abiJSON) as [parsedABI|]; [|discriminate].
  destruct (abi_Pack w parsedABI methodName params) as [data|] eqn:Ep;
    [|discriminate].
  destruct (node_CallContract n (Hex.HexToAddress contractAddress) data)
    as [result|] eqn:E; [|discriminate].
  simpl. intros [= <-]. exists parsedABI, data, result.
  split; [reflexivity|]. split; [exact Ep|]. split; [exact E|].
  split; [reflexivity|]. split; [reflexivity|].
  split; [apply FromHex_Encode|]. unfold Hex.Encode. discriminate.
Qed.

(** X16. [InteractWithContract] calls the node at most once, and not at
    all when the ABI does not parse or the call does not encode. *)
Theorem InteractWithContract_calls contractAddress abiJSON methodName params :
  (length (fst (InteractWithContract w n c contractAddress abiJSON methodName params))
   <= 1)%nat /\
  (forall e, abi_JSON w abiJSON = Err e ->
     InteractWithContract w n c contractAddress abiJSON methodName params
     = ([], Err (Errorf "failed to parse ABI" e))) /\
  (forall parsedABI e,
     abi_JSON w abiJSON = Ok parsedABI ->
     abi_Pack w parsedABI methodName params = Err e ->
     InteractWithContract w n c contractAddress abiJSON methodName params
     = ([], Err (Errorf "failed to encode function call" e))).
Proof.
  unfold InteractWithContract. split; [|split].
  - destruct (abi_JSON w abiJSON) as [parsedABI|]; simpl; [|lia].
    destruct (abi_Pack w parsedABI methodName params) as [data|]; simpl; [|lia].
    destruct (node_CallContract n _ data); simpl; lia.
  - intros e ->. reflexivity.
  - intros parsedABI e -> ->. reflexivity.
Qed.

End Calls.

(** * The handlers of the service *)

Section ServiceFacts.

Import Service.

Context {BF : BigFloatOps} (w : World) (s : Store) (ethClient : Client).

(** X17. A new contract gets its identifier and its two timestamps from
    the server: what the body says of them is overwritten. Owner, code,
    metadata, visibility and the deployment fields are stored as the body
    gives them, and the identifier answered is the one stored. *)
Theorem CreateContract_identity (c : Request Service.Contract) doc :
  EvInsertOne doc ∈ fst (CreateContract s c) ->
  exists given,
    body c = Ok given /\
    ID doc = uuid_New s /\
    CreatedAt doc = time_Now s 0 /\
    UpdatedAt doc = time_Now s 1 /\
    OwnerID doc = OwnerID given /\
    Service.ContractCode doc = Service.ContractCode given /\
    Metadata doc = Metadata given /\
    IsPublic doc = IsPublic given /\
    DeployedAddress doc = DeployedAddress given /\
    DeploymentInfo doc = DeploymentInfo given /\
    (code (snd (CreateContract s c)) = StatusCreated ->
     json (snd (CreateContract s c))
     = JCreated (ID doc) "Contract created successfully").
Proof.
  unfold CreateContract. destruct (body c) as [given|].
  2: { intros H. apply elem_of_nil in H as []. }
  destruct (db_InsertOne s _); simpl; intros H;
    apply list_elem_of_In in H; simpl in H; destruct H as [H|[]];
    injection H as <-; exists given; repeat split; try reflexivity.
  intros Hc. discriminate Hc.
Qed.

(** X18. The update document that reaches the collection never sets
    [_id], [owner_id] or [created_at], always sets [updated_at] to the
    time of the request, and sets every other key to what the body gives
    for it. It goes to the contract named in the path. *)
Theorem UpdateContract_protected_fields (c : Request (option (gmap string Value)))
    id set :
  EvUpdateOne id set ∈ fst (UpdateContract s c) ->
  id = Param c "id" /\
  set !! "_id"%string = None /\
  set !! "owner_id"%string = None /\
  set !! "created_at"%string = None /\
  set !! "updated_at"%string = Some (FTime (time_Now s 0)) /\
  exists updates : gmap string Value,
    body c = Ok (Some updates) /\
    forall key : string,
      key <> "_id"%string -> key <> "owner_id"%string ->
      key <> "created_at"%string -> key <> "updated_at"%string ->
      set !! key = FJson <$> updates !! key.
Proof.
  unfold UpdateContract. cbv zeta.
  destruct (body c) as [[updates|]|].
  3: { intros H. apply elem_of_nil in H as []. }
  2: { destruct (db_FindOne s (Param c "id")) as [existing| |];
         [destruct (negb _)| |];
         intros H; apply list_elem_of_In in H; simpl in H;
         destruct H as [H|[]]; discriminate. }
  assert (Hset :
    forall set' : gmap string Field,
      set' = <["updated_at"%string := FTime (time_Now s 0)]>
               (delete "created_at"%string
                  (delete "owner_id"%string
                     (delete "_id"%string (FJson <$> updates)))) ->
      set' !! "_id"%string = None /\
      set' !! "owner_id"%string = None /\
      set' !! "created_at"%string = None /\
      set' !! "updated_at"%string = Some (FTime (time_Now s 0)) /\
      forall key : string,
        key <> "_id"%string -> key <> "owner_id"%string ->
        key <> "created_at"%string -> key <> "updated_at"%string ->
        set' !! key = FJson <$> updates !! key).
  { intros set' ->. repeat split.
    - rewrite lookup_insert_ne by discriminate.
      rewrite !lookup_delete_ne by discriminate. apply lookup_delete_eq.
    - rewrite lookup_insert_ne by discriminate.
      rewrite lookup_delete_ne by discriminate. apply lookup_delete_eq.
    - rewrite lookup_insert_ne by discriminate. apply lookup_delete_eq.
    - apply lookup_insert_eq.
    - intros key H1 H2 H3 H4.
      rewrite lookup_insert_ne by congruence.
      rewrite !lookup_delete_ne by congruence. apply lookup_fmap. }
  destruct (db_FindOne s (Param c "id")) as [existing| |].
  2,3: intros H; apply list_elem_of_In in H; simpl in H;
       destruct H as [H|[]]; discriminate.
  destruct (negb _).
  { intros H; apply list_elem_of_In in H; simpl in H;
      destruct H as [H|[]]; discriminate. }
  destruct (db_UpdateOne s _ _) as [r|]; [destruct (MatchedCount r =? 0)|];
    simpl; intros H; apply list_elem_of_In in H; simpl in H;
    destruct H as [H|[H|[]]]; try discriminate H; injection H as <- <-;
    (split; [reflexivity|]);
    destruct (Hset _ eq_refl) as (? & ? & ? & ? & ?); eauto 10.
Qed.

(** X19. Only the owner writes: an update or a delete reaches the
    collection only when the contract exists and its owner is the user
    the header [X-User-ID] names; for any other user the answer is 403 and
    the collection is only read. *)
Theorem writes_need_owner (cu : Request (option (gmap string Value)))
    (cd : Request unit) :
  (forall id set,
      EvUpdateOne id set ∈ fst (UpdateContract s cu) ->
      exists existing,
        db_FindOne s (Param cu "id") = Decoded existing /\
        OwnerID existing = GetHeader cu "X-User-ID") /\
  (forall id,
      EvDeleteOne id ∈ fst (DeleteContract s cd) ->
      id = Param cd "id" /\
      exists existing,
        db_FindOne s (Param cd "id") = Decoded existing /\
        OwnerID existing = GetHeader cd "X-User-ID") /\
  (forall existing,
      db_FindOne s (Param cd "id") = Decoded existing ->
      OwnerID existing <> GetHeader cd "X-User-ID" ->
      DeleteContract s cd
      = ([EvFindOne (Param cd "id")],
         JSON StatusForbidden
           (JError "You don't have permission to delete this contract"))).
Proof.
  split; [|split].
  - intros id set. unfold UpdateContract. cbv zeta.
    destruct (body cu) as [updates|].
    2: { intros H. apply elem_of_nil in H as []. }
    destruct (db_FindOne s (Param cu "id")) as [existing| |].
    2,3: intros H; apply list_elem_of_In in H; simpl in H;
         destruct H as [H|[]]; discriminate.
    destruct (String.eqb (OwnerID existing) (GetHeader cu "X-User-ID")) eqn:E; simpl.
    + apply String.eqb_eq in E. eauto.
    + intros H; apply list_elem_of_In in H; simpl in H;
        destruct H as [H|[]]; discriminate.
  - intros id. unfold DeleteContract. cbv zeta.
    destruct (db_FindOne s (Param cd "id")) as [existing| |].
    2,3: intros H; apply list_elem_of_In in H; simpl in H;
         destruct H as [H|[]]; discriminate.
    destruct (String.eqb (OwnerID existing) (GetHeader cd "X-User-ID")) eqn:E; simpl.
    + apply String.eqb_eq in E.
      destruct (db_DeleteOne s _) as [k|]; [destruct (k =? 0)|]; simpl;
        intros H; apply list_elem_of_In in H; simpl in H;
        destruct H as [H|[H|[]]]; try discriminate H; injection H as <-; eauto.
    + intros H; apply list_elem_of_In in H; simpl in H;
        destruct H as [H|[]]; discriminate.
  - intros existing Hf Hne. unfold DeleteContract. cbv zeta. rewrite Hf.
    apply String.eqb_neq in Hne. rewrite Hne. reflexivity.
Qed.

(** X20. A listing always starts with one query. Its limit is the
    [limit] parameter when that parses to a positive number, and 100 when
    the parameter is absent, does not parse or is not positive, so it is
    always positive; the number of contracts skipped is the [skip]
    parameter whenever it parses, also when it is negative, and 0
    otherwise. The filter holds [owner_id] only when the request names an
    owner, [is_public] only when the request has that parameter, and then
    it is true exactly for the text "true"; it holds nothing else. *)
Theorem ListContracts_query (c : Request unit) :
  exists filter skip limit rest,
    fst (ListContracts s c) = EvFind filter skip limit :: rest /\
    0 < limit /\
    (forall val, Query c "limit" <> ""%string ->
                 ParseInt32 s (Query c "limit") = Ok val -> 0 < val -> limit = val) /\
    (Query c "limit" = ""%string \/
     (exists e, ParseInt32 s (Query c "limit") = Err e) \/
     (exists val, ParseInt32 s (Query c "limit") = Ok val /\ val <= 0) ->
     limit = 100) /\
    (forall val, Query c "skip" <> ""%string ->
                 ParseInt32 s (Query c "skip") = Ok val -> skip = val) /\
    (Query c "skip" = ""%string \/
     (exists e, ParseInt32 s (Query c "skip") = Err e) -> skip = 0) /\
    filter !! "owner_id"%string
      = (if String.eqb (Query c "owner_id") "" then None
         else Some (FString (Query c "owner_id"))) /\
    filter !! "is_public"%string
      = (if String.eqb (Query c "is_public") "" then None
         else Some (FBool (String.eqb (Query c "is_public") "true"))) /\
    (forall key : string,
        key <> "owner_id"%string -> key <> "is_public"%string ->
        filter !! key = None).
Proof.
  unfold ListContracts. cbv zeta.
  match goal with
  | |- context [db_Find s ?f ?k ?l] =>
      set (filter := f); set (skip := k); set (limit := l)
  end.
  exists filter, skip, limit.
  assert (Hl : 0 < limit /\
               (forall val, Query c "limit" <> ""%string ->
                            ParseInt32 s (Query c "limit") = Ok val ->
                            0 < val -> limit = val) /\
               (Query c "limit" = ""%string \/
                (exists e, ParseInt32 s (Query c "limit") = Err e) \/
                (exists val, ParseInt32 s (Query c "limit") = Ok val /\ val <= 0) ->
                limit = 100)).
  { subst limit. clear.
    destruct (String.eqb (Query c "limit") "") eqn:Eq; simpl.
    - apply String.eqb_eq in Eq.
      split; [reflexivity|]. split; [intros val Hne; contradiction | reflexivity].
    - apply String.eqb_neq in Eq.
      destruct (ParseInt32 s (Query c "limit")) as [val|e].
      + destruct (0 <? val) eqn:E.
        * apply Z.ltb_lt in E. split; [exact E|]. split.
          -- intros val' _ [= <-] _. reflexivity.
          -- intros [H|[[e H]|(val' & [= <-] & H)]];
               [contradiction | discriminate H | lia].
        * split; [reflexivity|]. split; [|reflexivity].
          apply Z.ltb_ge in E. intros val' _ [= <-] H. lia.
      + split; [reflexivity|]. split; [|reflexivity].
        intros val _ H. discriminate H. }
  assert (Hs : (forall val, Query c "skip" <> ""%string ->
                            ParseInt32 s (Query c "skip") = Ok val -> skip = val) /\
               (Query c "skip" = ""%string \/
                (exists e, ParseInt32 s (Query c "skip") = Err e) -> skip = 0)).
  { subst skip. clear.
    destruct (String.eqb (Query c "skip") "") eqn:Eq; simpl.
    - apply String.eqb_eq in Eq. split; [intros val Hne; contradiction | reflexivity].
    - apply String.eqb_neq in Eq.
      destruct (ParseInt32 s (Query c "skip")) as [val|e].
      + split; [intros val' _ [= <-]; reflexivity|].
        intros [H|[e H]]; [contradiction | discriminate H].
      + split; [intros val _ H; discriminate H | reflexivity]. }
  assert (Hf :
    filter !! "owner_id"%string
      = (if String.eqb (Query c "owner_id") "" then None
         else Some (FString (Query c "owner_id"))) /\
    filter !! "is_public"%string
      = (if String.eqb (Query c "is_public") "" then None
         else Some (FBool (String.eqb (Query c "is_public") "true"))) /\
    (forall key : string,
        key <> "owner_id"%string -> key <> "is_public"%string ->
        filter !! key = None)).
  { subst filter.
    destruct (String.eqb (Query c "owner_id") ""),
             (String.eqb (Query c "is_public") ""); simpl;
      repeat split; intros;
      rewrite ?lookup_insert_eq, ?lookup_insert_ne, ?lookup_empty by congruence;
      try reflexivity.
    all: rewrite ?lookup_insert_eq, ?lookup_insert_ne, ?lookup_empty by congruence;
         reflexivity. }
  destruct Hl as (Hl1 & Hl2 & Hl3). destruct Hs as [Hs1 Hs2].
  destruct Hf as (Hf1 & Hf2 & Hf3).
  destruct (db_Find s filter skip limit) as [[contracts|]|];
    eexists; (split; [reflexivity|]); auto 10.
Qed.

(** X21. The total a listing answers is the count of the collection for
    the filter, and the number of contracts on the page when the count
    fails. *)
Theorem ListContracts_total (c : Request unit) contracts total skip limit :
  snd (ListContracts s c) = JSON StatusOK (JList contracts total skip limit) ->
  exists filter,
    db_Find s filter skip limit = Ok (Ok contracts) /\
    match db_CountDocuments s filter with
    | Ok count => total = count
    | Err _ => total = Z.of_nat (length contracts)
    end.
Proof.
  unfold ListContracts. cbv zeta.
  match goal with
  | |- context [db_Find s ?f ?k ?l] =>
      set (filter := f); set (skip' := k); set (limit' := l)
  end.
  destruct (db_Find s filter skip' limit') as [[found|]|] eqn:E; simpl;
    try discriminate.
  intros [= <- <- <- <-]. exists filter. split; [exact E|].
  destruct (db_CountDocuments s filter); reflexivity.
Qed.

End ServiceFacts.

Lemma EvEth_in (t : list Event) (ev : Event) :
  Service.EvEth ev ∈ map Service.EvEth t -> ev ∈ t.
Proof.
  intros H. apply list_elem_of_fmap in H as (ev' & Heq & Hin).
  now injection Heq as ->.
Qed.

Section ServiceDeploy.

Import Service.

Context {BF : BigFloatOps} (w : World) (s : Store) (ethClient : Client).

(** Where a call of the service's [DeployContract] gets past the
    ownership check, its trace and response are those of the deployment it
    starts. *)
Lemma Service_DeployContract_cases (c : Request Contracts.DeploymentRequest) :
  (forall sev, sev ∈ fst (Service.DeployContract w s ethClient c) ->
               exists id, sev = EvFindOne id) \/
  exists req contract,
    body c = Ok req /\
    db_FindOne s (Contracts.ContractID req) = Decoded contract /\
    OwnerID contract = Contracts.DeployerID req /\
    let deployment :=
      Eth.DeployContract w ethClient
        (Contracts.deploymentParameters (core contract) req) in
    let called := EvFindOne (Contracts.ContractID req) :: map EvEth (trace deployment) in
    match outcome deployment with
    | Err err =>
        Service.DeployContract w s ethClient c
        = (called,
           JSON StatusInternalServerError
             (JErrorDetails "Failed to deploy contract" err))
    | Ok deployResult =>
        exists set info,
          info = deploymentInfo s req
                   (Types.ChainID (Contracts.deploymentParameters (core contract) req))
                   deployResult /\
          set = <["deployed_address"%string :=
                    FString (Eth.ContractAddress deployResult)]>
                (<["deployment_info"%string := FDoc info]>
                (<["updated_at"%string := FTime (time_Now s 1)]> ∅)) /\
          fst (Service.DeployContract w s ethClient c)
            = called ++ [EvUpdateOne (Contracts.ContractID req) set] /\
          snd (Service.DeployContract w s ethClient c)
          = (if match db_UpdateOne s (Contracts.ContractID req) set with
                | Err _ => false
                | Ok r => negb (ModifiedCount r =? 0)
                end
             then JSON StatusOK
                    (JDeployment
                       {| Service.TxHash := Eth.TxHash deployResult;
                          Service.ContractAddress := Eth.ContractAddress deployResult;
                          Service.Cost := Eth.Cost deployResult;
                          Service.BlockNumber := Eth.BlockNumber deployResult |})
             else JSON StatusInternalServerError
                    (JDeployedNotStored
                       "Contract deployed but failed to update database" info))
    end.
Proof.
  unfold Service.DeployContract. cbv zeta.
  destruct (body c) as [req|].
  2: { left. intros sev H. apply elem_of_nil in H as []. }
  destruct (db_FindOne s (Contracts.ContractID req)) as [contract| |] eqn:Ef.
  2,3: left; intros sev H; apply list_elem_of_In in H; simpl in H;
       destruct H as [<-|[]]; eauto.
  destruct (String.eqb (OwnerID contract) (Contracts.DeployerID req)) eqn:Eo; simpl.
  2: { left; intros sev H; apply list_elem_of_In in H; simpl in H;
       destruct H as [<-|[]]; eauto. }
  apply String.eqb_eq in Eo. right. exists req, contract.
  split; [reflexivity|]. split; [exact Ef|]. split; [exact Eo|].
  destruct (outcome (Eth.DeployContract w ethClient _)) as [deployResult|err];
    [|reflexivity].
  eexists _, _. split; [reflexivity|]. split; [reflexivity|].
  destruct (db_UpdateOne s _ _) as [r|] eqn:Eu; simpl.
  - destruct (ModifiedCount r =? 0) eqn:Em; simpl; split; reflexivity.
  - split; reflexivity.
Qed.

(** X22. The service deploys only for the owner: the client is called,
    and the record written, only when the body binds, the contract exists
    and its owner is the deployer the request names. Otherwise the
    collection is read once at most. *)
Theorem Service_DeployContract_owner (c : Request Contracts.DeploymentRequest) sev :
  sev ∈ fst (Service.DeployContract w s ethClient c) ->
  (forall id, sev <> EvFindOne id) ->
  exists req contract,
    body c = Ok req /\
    db_FindOne s (Contracts.ContractID req) = Decoded contract /\
    OwnerID contract = Contracts.DeployerID req.
Proof.
  intros Hin Hne.
  destruct (Service_DeployContract_cases c) as [H|(req & contract & H1 & H2 & H3 & _)].
  - destruct (H sev Hin) as [id ->]. destruct (Hne id eq_refl).
  - eauto.
Qed.

(** X23. The service fills in what the request leaves open, and the
    client's own chain is never used: whatever it submits has the gas limit
    of the request, or 4000000 when that is 0, and is signed for the chain
    of the request, or for chain 1 when that is 0. *)
Theorem Service_DeployContract_defaults (c : Request Contracts.DeploymentRequest) stx :
  EvEth (EvSendTransaction stx) ∈ fst (Service.DeployContract w s ethClient c) ->
  exists req,
    body c = Ok req /\
    tx_gas (stx_tx stx)
      = (if Contracts.GasLimit req =? 0 then 4000000 else Contracts.GasLimit req) /\
    stx_chainID stx
      = (if Contracts.ChainID req =? 0 then 1 else Contracts.ChainID req).
Proof.
  intros Hin.
  destruct (Service_DeployContract_cases c) as [H|(req & contract & H1 & _ & _ & H)].
  { destruct (H _ Hin) as [id Hid]. discriminate Hid. }
  exists req. split; [exact H1|]. cbv zeta in H.
  assert (Hs : EvSendTransaction stx ∈
                 trace (Eth.DeployContract w ethClient
                          (Contracts.deploymentParameters (core contract) req))).
  { destruct (outcome (Eth.DeployContract w ethClient _)).
    - destruct H as (set & info & _ & _ & Ht & _). rewrite Ht in Hin.
      apply elem_of_app in Hin as [Hin|Hin].
      + apply elem_of_cons in Hin as [Hin|Hin]; [discriminate Hin|].
        now apply EvEth_in.
      + apply list_elem_of_In in Hin. simpl in Hin.
        destruct Hin as [Hin|[]]. discriminate Hin.
    - rewrite H in Hin. simpl in Hin.
      apply elem_of_cons in Hin as [Hin|Hin]; [discriminate Hin|].
      now apply EvEth_in. }
  destruct (DeployRun_sent w ethClient _ _ stx (DeployContract_run w ethClient _) Hs)
    as (tx & chain & key & -> & Hp).
  destruct Hp as [? ? ? ? ? ? _ _ _ _ _ _ Hchain _ _ Hgas _ _ _ _].
  simpl in *. split; [exact Hgas|]. rewrite Hchain.
  destruct (Contracts.ChainID req =? 0) eqn:E; [reflexivity|]. now rewrite E.
Qed.

(** X24. The record of a contract is written only after its deployment
    returned a result, and the write sets three fields and no other: the
    deployed address and the deployment information of that result, and
    the update time. A failed deployment leaves the record as it was. *)
Theorem Service_DeployContract_record (c : Request Contracts.DeploymentRequest) id set :
  EvUpdateOne id set ∈ fst (Service.DeployContract w s ethClient c) ->
  exists req contract deployResult info,
    body c = Ok req /\ id = Contracts.ContractID req /\
    db_FindOne s id = Decoded contract /\
    outcome (Eth.DeployContract w ethClient
               (Contracts.deploymentParameters (core contract) req))
      = Ok deployResult /\
    set !! "deployed_address"%string
      = Some (FString (Eth.ContractAddress deployResult)) /\
    set !! "deployment_info"%string = Some (FDoc info) /\
    info !! "tx_hash"%string = Some (FString (Eth.TxHash deployResult)) /\
    info !! "deployer_id"%string = Some (FString (Contracts.DeployerID req)) /\
    set !! "updated_at"%string = Some (FTime (time_Now s 1)) /\
    (forall key : string,
        key <> "deployed_address"%string -> key <> "deployment_info"%string ->
        key <> "updated_at"%string -> set !! key = None).
Proof.
  intros Hin.
  destruct (Service_DeployContract_cases c) as [H|(req & contract & H1 & H2 & _ & H)].
  { destruct (H _ Hin) as [id' Hid]. discriminate Hid. }
  cbv zeta in H.
  destruct (outcome (Eth.DeployContract w ethClient _)) as [deployResult|err] eqn:Eo.
  - destruct H as (set' & info & Hi & Hs & Ht & _). rewrite Ht in Hin.
    apply elem_of_app in Hin as [Hin|Hin].
    { apply elem_of_cons in Hin as [Hin|Hin]; [discriminate Hin|].
      apply list_elem_of_fmap in Hin as (ev & Heq & _). discriminate Heq. }
    apply list_elem_of_In in Hin. simpl in Hin. destruct Hin as [Hin|[]].
    injection Hin as <- <-.
    exists req, contract, deployResult, info.
    split; [exact H1|]. split; [reflexivity|]. split; [exact H2|].
    split; [exact Eo|]. subst set' info.
    split; [apply lookup_insert_eq|].
    split; [rewrite lookup_insert_ne by discriminate; apply lookup_insert_eq|].
    split; [apply lookup_insert_eq|].
    split; [unfold deploymentInfo;
            rewrite !lookup_insert_ne by discriminate; apply lookup_insert_eq|].
    split; [rewrite !lookup_insert_ne by discriminate; apply lookup_insert_eq|].
    intros key K1 K2 K3.
    rewrite !lookup_insert_ne by congruence. apply lookup_empty.
  - rewrite H in Hin. simpl in Hin.
    apply elem_of_cons in Hin as [Hin|Hin]; [discriminate Hin|].
    apply list_elem_of_fmap in Hin as (ev & Heq & _). discriminate Heq.
Qed.


(** X26. A status request with a hash answers 200 with the status
    "pending" whenever the chain has no receipt for it, whatever the text
    of the hash, after one call to the node; a request with an empty hash
    answers 400 and calls nothing. *)
Theorem GetDeploymentStatus_pending (c : Request unit) :
  (Param c "txHash" = ""%string ->
   GetDeploymentStatus w ethClient c
   = ([], JSON StatusBadRequest (JError "Transaction hash is required"))) /\
  (Param c "txHash" <> ""%string ->
   Unmined w (Hex.HexToHash (Param c "txHash")) ->
   GetDeploymentStatus w ethClient c
   = ([EvEth (EvTransactionReceipt (Hex.HexToHash (Param c "txHash")))],
      JSON StatusOK
        (JStatus {| Status := "pending"; ts_BlockNumber := 0; Confirmations := 0;
                    ts_GasUsed := 0; ts_Cost := float64_zero |}))).
Proof.
  unfold GetDeploymentStatus. cbv zeta. split.
  - intros ->. reflexivity.
  - intros Hne Hu. apply String.eqb_neq in Hne. rewrite Hne.
    unfold Unmined in Hu.
    unfold Eth.GetTransactionStatus, bind, emit. cbv zeta. simpl.
    rewrite Hu. reflexivity.
Qed.

End ServiceDeploy.

(** * The scenario, run further *)

Import Cases.

Lemma NewEthClient_connects_witness :
  outcome (NewEthClient (world mined) "http://localhost:8545") = Ok conn.
Proof.
  apply (proj1 (proj2 (NewEthClient_connects (world mined) "http://localhost:8545")) conn).
  repeat split. discriminate.
Defined.

Lemma GetPrivateKey_prefix_witness :
  GetPrivateKey (withEnv "0x07" (world mined)) conn
  = GetPrivateKey (withEnv "07" (world mined)) conn /\
  outcome (GetPrivateKey (withEnv "0x07" (world mined)) conn) = Ok key.
Proof.
  apply (GetPrivateKey_prefix (withEnv "0x07" (world mined))
           (withEnv "07" (world mined)) conn "07").
  - reflexivity.
  - reflexivity.
  - discriminate.
  - reflexivity.
  - reflexivity.
Defined.

Lemma DeployContract_without_key_witness :
  (exists e, outcome (DeployContract (BF := GoFloat.ops)
                        (withEnv "" (world mined)) conn request) = Err e) /\
  Forall (fun ev => compilerStep ev = true \/ ev = EvGetenv "ETH_PRIVATE_KEY")
    (trace (DeployContract (BF := GoFloat.ops)
              (withEnv "" (world mined)) conn request)).
Proof.
  apply (DeployContract_without_key (BF := GoFloat.ops)
           (withEnv "" (world mined)) conn request).
  reflexivity.
Defined.

Lemma CompileContract_toolchain_witness :
  os_CreateTemp (world mined) "solidity-*.sol" = Ok "/tmp/solidity-1.sol"%string /\
  os_WriteString (world mined) "/tmp/solidity-1.sol" "contract Token {}" = Ok tt /\
  os_Close (world mined) "/tmp/solidity-1.sol" = Ok tt /\
  outcome (CompileContract (world mined) conn "contract Token {}") =
    match solc_CompileSolidity (world mined) "/tmp/solidity-1.sol" "contract Token {}" with
    | Ok contracts => Ok contracts
    | Err e => Err (Errorf "compilation failed" e)
    end.
Proof.
  apply (CompileContract_toolchain (world mined) conn "contract Token {}"
           "/tmp/solidity-1.sol").
  visited.
Defined.

Lemma DeployContract_creation_witness :
  tx_to (stx_tx signed) = None /\
  tx_value (stx_tx signed) = 0 /\
  tx_gas (stx_tx signed) = Types.GasLimit request /\
  node_SuggestGasPrice (world mined) = Ok (tx_gasPrice (stx_tx signed)) /\
  outcome (GetPrivateKey (world mined) conn) = Ok (stx_key signed) /\
  node_PendingNonceAt (world mined)
    (crypto_PubkeyToAddress (world mined) {| of_key := stx_key signed |})
    = Ok (tx_nonce (stx_tx signed)).
Proof.
  apply (DeployContract_creation (BF := GoFloat.ops) (world mined) conn request signed).
  visited.
Defined.

Lemma DeployContract_empty_bytecode_witness :
  outcome (DeployContract (BF := GoFloat.ops) (world mined) conn looseRequest)
    = Err (New "empty bytecode") /\
  trace (DeployContract (BF := GoFloat.ops) (world mined) conn looseRequest)
    = trace (CompileContract (world mined) conn (Types.ContractCode looseRequest)).
Proof.
  apply (DeployContract_empty_bytecode (BF := GoFloat.ops) (world mined) conn
           looseRequest compiled "tmp.sol:IToken" iface "[]" (ParsedABI "[]")).
  - reflexivity.
  - reflexivity.
  - reflexivity.
  - reflexivity.
  - reflexivity.
Defined.

Lemma EstimateDeploymentCost_priced_witness :
  estimatedPayload (world vacant) onlyIface = [] /\
  outcome (EstimateDeploymentCost (BF := GoFloat.ops) (world vacant) conn
             "interface IToken {}")
  = Ok (S754_finite false 7747632510958012 (-64)).
Proof.
  split; [reflexivity|].
  apply (proj2 (EstimateDeploymentCost_priced (BF := GoFloat.ops) (world vacant) conn
                  "interface IToken {}" (S754_finite false 7747632510958012 (-64)))).
  exists onlyIface, key, 21000, 20000000000.
  split; [reflexivity|]. split; [vm_compute; discriminate|].
  split; [reflexivity|]. split; [reflexivity|]. split; reflexivity.
Defined.

Lemma no_contracts_witness :
  outcome (DeployContract (BF := GoFloat.ops) (world blank) conn plainRequest)
    = Err (New "no contracts found in source code") /\
  outcome (EstimateDeploymentCost (BF := GoFloat.ops) (world blank) conn
             "contract Token {}")
    = Err (New "no contracts found in source code") /\
  outcome (VerifyContractSource (world blank) conn
             "0x00000000000000000000000000000000000000cc" "contract Token {}" "")
    = Ok false.
Proof.
  apply (no_contracts (BF := GoFloat.ops) (world blank) conn
           "0x00000000000000000000000000000000000000cc" "contract Token {}" ""
           (Hex.FromHex "0x6080604052") plainRequest).
  - reflexivity.
  - reflexivity.
  - reflexivity.
Defined.

Lemma GetTransactionStatus_hash_text_witness :
  GetTransactionStatus (BF := GoFloat.ops) (world mined) conn "0x6080604052"
  = GetTransactionStatus (BF := GoFloat.ops) (world mined) conn "6080604052".
Proof.
  apply (GetTransactionStatus_hash_text (BF := GoFloat.ops) (world mined) conn
           "6080604052").
  reflexivity.
Defined.

Lemma deploy_then_status_witness :
  exists rest,
    trace (GetTransactionStatus (BF := GoFloat.ops) (world lagging) conn
             "0x0000000000000000000000000000000000000000000000000000006080604052")
    = EvTransactionReceipt (tx_Hash (world stalled) signed) :: rest.
Proof.
  apply (deploy_then_status (BF := GoFloat.ops) (world stalled) (world lagging) conn
           request signed
           (@Build_DeploymentResult GoFloat.ops
              "0x0000000000000000000000000000000000000000000000000000006080604052"
              "" 0 0 None (S754_zero false))).
  - visited.
  - reflexivity.
  - reflexivity.
Defined.

Lemma estimate_prices_deployed_payload_witness :
  exists data,
    EvEstimateGas sender data ∈
      trace (EstimateDeploymentCost (BF := GoFloat.ops) (world single) conn
               (Types.ContractCode plainRequest)) /\
    payload (EvSignTx creation 1337) = Some data /\
    data = Hex.FromHex (Code token).
Proof.
  exists (Hex.FromHex "0x6080604052").
  split; [visited|]. split; [reflexivity|].
  apply (estimate_prices_deployed_payload (BF := GoFloat.ops) (world single) conn
           plainRequest "tmp.sol:Token" token (EvSignTx creation 1337)
           (Hex.FromHex "0x6080604052") sender (Hex.FromHex "0x6080604052")).
  - reflexivity.
  - reflexivity.
  - visited.
  - reflexivity.
  - visited.
Defined.

Lemma cost_agreement_witness :
  exists res st,
    outcome (DeployContract (BF := GoFloat.ops) (world mined) conn request) = Ok res /\
    outcome (GetTransactionStatus (BF := GoFloat.ops) (world mined) conn "0x6080604052")
      = Ok st /\
    Cost res = ts_Cost st /\ GasUsed res = ts_GasUsed st.
Proof.
  eexists _, _. split; [reflexivity|]. split; [reflexivity|].
  apply (cost_agreement (BF := GoFloat.ops) (world mined) conn request signed receipt
           _ "0x6080604052" {| h_Number := 12 |} _).
  - visited.
  - reflexivity.
  - reflexivity.
  - repeat split.
  - reflexivity.
Defined.

Lemma InteractWithContract_result_witness :
  exists parsedABI data result,
    abi_JSON (world mined) "[]" = Ok parsedABI /\
    abi_Pack (world mined) parsedABI "totalSupply" [] = Ok data /\
    Call.node_CallContract answering
      (Hex.HexToAddress "0x00000000000000000000000000000000000000cc") data = Ok result /\
    fst (Call.InteractWithContract (world mined) answering conn
           "0x00000000000000000000000000000000000000cc" "[]" "totalSupply" [])
      = [Call.EvCallContract
           (Hex.HexToAddress "0x00000000000000000000000000000000000000cc") data] /\
    "0x000000000000000000000000000000000000000000000000000000000000002a"%string
      = Hex.Encode result /\
    Hex.FromHex "0x000000000000000000000000000000000000000000000000000000000000002a"
      = result /\
    "0x000000000000000000000000000000000000000000000000000000000000002a"%string
      <> ""%string.
Proof.
  apply (InteractWithContract_result (world mined) answering conn
           "0x00000000000000000000000000000000000000cc" "[]" "totalSupply" []).
  reflexivity.
Defined.

Lemma InteractWithContract_calls_witness :
  Call.InteractWithContract
    (world mined) answering conn
    "0x00000000000000000000000000000000000000cc" "[]" "totalSupply" []
  = ([Call.EvCallContract
        (Hex.HexToAddress "0x00000000000000000000000000000000000000cc") []],
     Ok "0x000000000000000000000000000000000000000000000000000000000000002a"%string) /\
  (length (fst (Call.InteractWithContract (world mined) answering conn
                  "0x00000000000000000000000000000000000000cc" "[]" "totalSupply" []))
   <= 1)%nat.
Proof.
  split; [reflexivity|].
  apply (proj1 (InteractWithContract_calls (world mined) answering conn
                  "0x00000000000000000000000000000000000000cc" "[]" "totalSupply" [])).
Defined.

Lemma CreateContract_identity_witness :
  exists given,
    Ok stored = Ok given /\
    Service.ID (Service.Build_Contract
                  "6ba7b810-9dad-11d1-80b4-00c04fd430c8" "alice"
                  "contract Token {} interface IToken {}" None
                  1700000100 1700000101 false "" None)
      = Service.uuid_New store.
Proof.
  destruct (CreateContract_identity (BF := GoFloat.ops) store
              (httpRequest (Ok stored) "" [] "alice")
              (Service.Build_Contract
                 "6ba7b810-9dad-11d1-80b4-00c04fd430c8" "alice"
                 "contract Token {} interface IToken {}" None
                 1700000100 1700000101 false "" None))
    as (given & Hb & Hid & _).
  - visited.
  - exists given. split; [exact Hb | exact Hid].
Defined.

Lemma UpdateContract_protected_fields_witness :
  exists set,
    Service.EvUpdateOne "c-1" set ∈
      fst (Service.UpdateContract (BF := GoFloat.ops) store
             (httpRequest
                (Ok (Some (<["owner_id"%string := VString "mallory"]>
                             (<["is_public"%string := VBool true]> ∅))))
                "c-1" [] "alice")) /\
    set !! "owner_id"%string = None /\
    set !! "is_public"%string = Some (Service.FJson (VBool true)).
Proof.
  eexists. split; [visited|].
  destruct (UpdateContract_protected_fields (BF := GoFloat.ops) store
              (httpRequest
                 (Ok (Some (<["owner_id"%string := VString "mallory"]>
                              (<["is_public"%string := VBool true]> ∅))))
                 "c-1" [] "alice") "c-1" _ ltac:(visited))
    as (_ & _ & Howner & _ & _ & updates & Hb & Hk).
  split; [exact Howner|]. reflexivity.
Defined.

Lemma writes_need_owner_witness :
  Service.DeleteContract (BF := GoFloat.ops) store (httpRequest (Ok tt) "c-1" [] "mallory")
  = ([Service.EvFindOne "c-1"],
     Service.JSON Service.StatusForbidden
       (Service.JError "You don't have permission to delete this contract")) /\
  exists existing,
    Service.db_FindOne store "c-1" = Service.Decoded existing /\
    Service.OwnerID existing = "alice"%string.
Proof.
  split.
  - apply (proj2 (proj2 (writes_need_owner (BF := GoFloat.ops) store
                           (httpRequest (Ok (Some ∅)) "c-1" [] "alice")
                           (httpRequest (Ok tt) "c-1" [] "mallory"))) stored).
    + reflexivity.
    + discriminate.
  - destruct (proj1 (proj2 (writes_need_owner (BF := GoFloat.ops) store
                              (httpRequest (Ok (Some ∅)) "c-1" [] "alice")
                              (httpRequest (Ok tt) "c-1" [] "alice")))
                "c-1" ltac:(visited))
      as (_ & existing & Hf & Ho).
    exists existing. split; [exact Hf | exact Ho].
Defined.

Lemma ListContracts_total_witness :
  exists filter,
    Service.db_Find store filter 0 25 = Ok (Ok [stored]) /\
    match Service.db_CountDocuments store filter with
    | Ok count => 1 = count
    | Err _ => 1 = Z.of_nat (length [stored])
    end.
Proof.
  apply (ListContracts_total (BF := GoFloat.ops) store
           (httpRequest (Ok tt) "" [("limit", "25"); ("is_public", "yes")]%string "alice")
           [stored] 1 0 25).
  reflexivity.
Defined.

Lemma Service_DeployContract_owner_witness :
  exists req contract,
    Ok (deployBody "alice") = Ok req /\
    Service.db_FindOne store (Contracts.ContractID req) = Service.Decoded contract /\
    Service.OwnerID contract = Contracts.DeployerID req.
Proof.
  apply (Service_DeployContract_owner (BF := GoFloat.ops) (world single) store conn
           (httpRequest (Ok (deployBody "alice")) "" [] "alice")
           (Service.EvEth (EvSendTransaction signedForMainnet))).
  - visited.
  - discriminate.
Defined.

Lemma Service_DeployContract_defaults_witness :
  exists req,
    Ok (deployBody "alice") = Ok req /\
    tx_gas (stx_tx signedForMainnet)
      = (if Contracts.GasLimit req =? 0 then 4000000 else Contracts.GasLimit req) /\
    stx_chainID signedForMainnet
      = (if Contracts.ChainID req =? 0 then 1 else Contracts.ChainID req).
Proof.
  apply (Service_DeployContract_defaults (BF := GoFloat.ops) (world single) store conn
           (httpRequest (Ok (deployBody "alice")) "" [] "alice") signedForMainnet).
  visited.
Defined.

Lemma Service_DeployContract_record_witness :
  exists set,
    Service.EvUpdateOne "c-1" set ∈
      fst (Service.DeployContract (BF := GoFloat.ops) (world single) store conn
             (httpRequest (Ok (deployBody "alice")) "" [] "alice")) /\
    set !! "deployed_address"%string
      = Some (Service.FString "0x00000000000000000000000000000000000000cc") /\
    set !! "contract_code"%string = None.
Proof.
  eexists. split; [visited|].
  destruct (Service_DeployContract_record (BF := GoFloat.ops) (world single) store conn
              (httpRequest (Ok (deployBody "alice")) "" [] "alice") "c-1" _
              ltac:(visited))
    as (req & contract & res & info & _ & _ & _ & _ & _ & _ & _ & _ & _ & Hk).
  split; [reflexivity|]. apply Hk; discriminate.
Defined.


Lemma GetDeploymentStatus_pending_witness :
  Service.GetDeploymentStatus (BF := GoFloat.ops) (world stalled) conn
    (httpRequest (Ok tt) "not a hash" [] "")
  = ([Service.EvEth (EvTransactionReceipt (Hex.HexToHash "not a hash"))],
     Service.JSON Service.StatusOK
       (Service.JStatus
          (@Build_TransactionStatus GoFloat.ops "pending" 0 0 0 (S754_zero false)))).
Proof.
  apply (proj2 (GetDeploymentStatus_pending (BF := GoFloat.ops) (world stalled) conn
                  (httpRequest (Ok tt) "not a hash" [] ""))).
  - discriminate.
  - reflexivity.
Defined.

